(** * ImageNetDataset (src/dataset.py): index arithmetic of the dataset

    A shallow embedding of the annotation loader ([_load_annotations]), of
    the length computation ([_get_len]) and of the index resolver
    ([_calculate_image_folder_and_name], [__getitem__]) of the class
    [ImageNetDataset], followed by the properties of the specification.

    Modelling conventions.
    - Python [int] is [Z]; [str] is [string] (names are ASCII);
      a [dict] keyed by strings is a [gmap string _]; a [list] is a [list].
    - A Python call that may raise returns a [result]: [Ok v] or
      [Raise e], where [e] names the exception class.
    - The file system is an input: the entries of [root_dir/train] and of
      [root_dir/val] with, for every entry, whether it is a plain file or a
      directory and, for a directory, what [listdir] returns for it (in the
      order [listdir] returns it); [labels.txt] is the list of its lines.
      A folder name of the annotation file is looked up as the name of an
      entry of [root_dir/phase]: a token that is not a plain entry name
      (["."], a path with a separator) is a missing folder here.
    - [int] follows the decimal syntax of Python; the bound that CPython puts
      on the number of digits of a literal is left out.
    - The [while] loop runs on fuel; [loop_fuel] tests of its condition are
      always enough ([train_loop_total]), so a result [None] never shows.
    - Image decoding and transforms are external: [__getitem__] returns the
      path components of the image in place of the pixel array. *)

From Stdlib Require Import ZArith String Ascii DecimalString.
From stdpp Require Import gmap strings list fin_maps sorting.

Local Open Scope string_scope.
Local Open Scope Z_scope.

(** ** Exceptions and results *)

Inductive exn : Set :=
| AssertionError
| FileNotFoundError
| NotADirectoryError
| ValueError
| IndexError
| KeyError
| TypeError.

Inductive result (A : Type) : Type :=
| Ok (a : A)
| Raise (e : exn).

Arguments Ok {A} a.
Arguments Raise {A} e.

#[global] Instance result_ret : MRet result := λ A a, Ok a.

#[global] Instance result_bind : MBind result := λ A B k r,
  match r with
  | Ok a => k a
  | Raise e => Raise e
  end.

Definition is_ok {A : Type} (r : result A) : bool :=
  match r with Ok _ => true | Raise _ => false end.

Definition raises {A : Type} (r : result A) : Prop := ∃ e, r = Raise e.

(** [mapM f l]: calls [f] on the elements from left to right, the first
    exception ends the traversal. *)
Fixpoint mapM {A B : Type} (f : A → result B) (l : list A) : result (list B) :=
  match l with
  | [] => Ok []
  | x :: r => y ← f x; ys ← mapM f r; Ok (y :: ys)
  end.

(** ** Python built-ins used by the class *)

Module Py.

(** [l[i]] on a list: a negative index counts from the end. *)
Definition getitem {A : Type} (l : list A) (i : Z) : result A :=
  let n := Z.of_nat (length l) in
  let j := if i <? 0 then i + n else i in
  if (j <? 0) || (n <=? j) then Raise IndexError
  else match l !! Z.to_nat j with
       | Some x => Ok x
       | None => Raise IndexError
       end.

(** [d[k]] on a dict. *)
Definition dict_get {V : Type} (d : gmap string V) (k : string) : result V :=
  match d !! k with
  | Some v => Ok v
  | None => Raise KeyError
  end.

(** [len(l)]. *)
Definition len {A : Type} (l : list A) : Z := Z.of_nat (length l).

(** Characters that [str.strip()] and [str.split()] treat as white space
    (ASCII range): TAB, LF, VT, FF, CR, FS, GS, RS, US and space. *)
Definition isspace (c : ascii) : bool :=
  let n := nat_of_ascii c in
  ((9 <=? n) && (n <=? 13) || (28 <=? n) && (n <=? 32))%nat.

Definition isdigit (c : ascii) : bool :=
  let n := nat_of_ascii c in ((48 <=? n) && (n <=? 57))%nat.

Definition digit_val (c : ascii) : Z := Z.of_nat (nat_of_ascii c) - 48.

Fixpoint lstrip (s : string) : string :=
  match s with
  | String c r => if isspace c then lstrip r else s
  | EmptyString => EmptyString
  end.

(** [rstrip]: a character is kept when it is not white space or when
    something is kept after it. *)
Fixpoint rstrip (s : string) : string :=
  match s with
  | String c r =>
      match rstrip r with
      | EmptyString => if isspace c then EmptyString else String c EmptyString
      | r' => String c r'
      end
  | EmptyString => EmptyString
  end.

(** [s.strip()]. *)
Definition strip (s : string) : string := rstrip (lstrip s).

(** [s.split()] : the maximal runs of characters that are not white space.
    [cur] is the run being read, in reverse. *)
Fixpoint split_ws_aux (cur : list ascii) (s : string) : list string :=
  match s with
  | EmptyString =>
      match cur with
      | [] => []
      | _ => [string_of_list_ascii (rev cur)]
      end
  | String c r =>
      if isspace c then
        match cur with
        | [] => split_ws_aux [] r
        | _ => string_of_list_ascii (rev cur) :: split_ws_aux [] r
        end
      else split_ws_aux (c :: cur) r
  end.

Definition split_ws (s : string) : list string := split_ws_aux [] s.

(** [s.split(sep)] for a one-character separator: every occurrence of [sep]
    ends a field, empty fields are kept, the result is never empty. *)
Fixpoint split_on (sep : ascii) (s : string) : list string :=
  match s with
  | EmptyString => [EmptyString]
  | String c r =>
      if Ascii.eqb c sep then EmptyString :: split_on sep r
      else match split_on sep r with
           | f :: fs => String c f :: fs
           | [] => [String c EmptyString]
           end
  end.

(** [s.replace(a, b)] for one-character [a] and [b]. *)
Fixpoint replace (a b : ascii) (s : string) : string :=
  match s with
  | EmptyString => EmptyString
  | String c r => String (if Ascii.eqb c a then b else c) (replace a b r)
  end.

(** [s[1:]]. *)
Definition tail (s : string) : string :=
  match s with
  | EmptyString => EmptyString
  | String _ r => r
  end.

(** The digits of a decimal literal after its first digit: digits, each
    possibly preceded by one underscore. [acc] is the value read so far. *)
Fixpoint int_digits (acc : Z) (s : string) : option Z :=
  match s with
  | EmptyString => Some acc
  | String c r =>
      if isdigit c then int_digits (10 * acc + digit_val c) r
      else if Ascii.eqb c "_" then
        match r with
        | String d r' =>
            if isdigit d then int_digits (10 * acc + digit_val d) r' else None
        | EmptyString => None
        end
      else None
  end.

Definition int_unsigned (s : string) : option Z :=
  match s with
  | String c r => if isdigit c then int_digits (digit_val c) r else None
  | EmptyString => None
  end.

(** Characters that [int()] skips around the literal of an ASCII string:
    TAB, LF, VT, FF, CR and space (FS, GS, RS and US are not skipped). *)
Definition int_isspace (c : ascii) : bool :=
  let n := nat_of_ascii c in
  ((9 <=? n) && (n <=? 13) || (n =? 32))%nat.

Fixpoint int_lstrip (s : string) : string :=
  match s with
  | String c r => if int_isspace c then int_lstrip r else s
  | EmptyString => EmptyString
  end.

Fixpoint int_rstrip (s : string) : string :=
  match s with
  | String c r =>
      match int_rstrip r with
      | EmptyString => if int_isspace c then EmptyString else String c EmptyString
      | r' => String c r'
      end
  | EmptyString => EmptyString
  end.

Definition int_strip (s : string) : string := int_rstrip (int_lstrip s).

(** [int(s)] in base 10: surrounding white space is ignored, then an optional
    sign, then digits with single underscores allowed between digits. *)
Definition int (s : string) : result Z :=
  let t := int_strip s in
  let v := match t with
           | String "+" r => int_unsigned r
           | String "-" r => Z.opp <$> int_unsigned r
           | _ => int_unsigned t
           end in
  match v with
  | Some z => Ok z
  | None => Raise ValueError
  end.

(** Stable insertion into a list of (key, value) pairs sorted by key: the new
    pair goes before the first pair whose key is not smaller. *)
Fixpoint insert_key {A : Type} (k : Z) (x : A) (l : list (Z * A)) : list (Z * A) :=
  match l with
  | [] => [(k, x)]
  | (k', y) :: r =>
      if k <=? k' then (k, x) :: l else (k', y) :: insert_key k x r
  end.

Fixpoint sort_keyed {A : Type} (l : list (Z * A)) : list (Z * A) :=
  match l with
  | [] => []
  | (k, x) :: r => insert_key k x (sort_keyed r)
  end.

(** [sorted(l, key=key)]: the key of every element is computed first, from
    left to right; then the elements are put in ascending key order, elements
    of equal key staying in their original order (the sort is stable). *)
Definition sorted {A : Type} (key : A → result Z) (l : list A) : result (list A) :=
  ks ← mapM key l;
  Ok ((sort_keyed (zip ks l)).*2).

(** [reduce(lambda x, y: x + y, l)] without an initial value. *)
Definition reduce_add (l : list Z) : result Z :=
  match l with
  | [] => Raise TypeError
  | x :: r => Ok (fold_left Z.add r x)
  end.

End Py.

(** ** The file system under [root_dir] *)

Inductive node : Type :=
| File
| Dir (entries : list string).

Record root_dir : Type := {
  dir_train : list (string * node);
  dir_val : list (string * node);
  labels_txt : list string
}.

Inductive Phase : Set := Train | Val.

Definition phase_entries (root : root_dir) (phase : Phase) : list (string * node) :=
  match phase with
  | Train => dir_train root
  | Val => dir_val root
  end.

Fixpoint find_entry (name : string) (entries : list (string * node)) : option node :=
  match entries with
  | [] => None
  | (n, x) :: r => if String.eqb n name then Some x else find_entry name r
  end.

(** [listdir(path.join(root_dir, phase))] *)
Definition listdir_phase (root : root_dir) (phase : Phase) : list string :=
  (phase_entries root phase).*1.

(** [listdir(path.join(root_dir, phase, folder_name))] *)
Definition listdir_folder (root : root_dir) (phase : Phase) (folder_name : string)
  : result (list string) :=
  match find_entry folder_name (phase_entries root phase) with
  | Some (Dir entries) => Ok entries
  | Some File => Raise NotADirectoryError
  | None => Raise FileNotFoundError
  end.

(** ** The class *)

(** A value of [folder_stats]: the dict with keys "id", "len" and "images". *)
Module Stats.
Record t : Type := { id : Z; len : Z; images : list string }.
End Stats.

Record ImageNetDataset : Type := {
  phase : Phase;
  classid_to_label : gmap string string;
  _folder_stats : gmap string Stats.t;
  _folder_names : list string;
  _dataset_len : Z
}.

(** What [__getitem__] returns: [image] stands for the decoded file and is
    kept as the pair (folder_name, image_name) given to [Image.open]. *)
Record item : Type := { image : string * string; class_id : Z }.

(** [lambda folder_name: int(folder_name[1:])] *)
Definition folder_key (folder_name : string) : result Z :=
  Py.int (Py.tail folder_name).

(** [lambda image_name: int(image_name.replace('.', '_').split('_')[1])] *)
Definition image_key (image_name : string) : result Z :=
  token ← Py.getitem (Py.split_on "_" (Py.replace "." "_" image_name)) 1;
  Py.int token.

(** The body of [for line in f] in [_load_annotations], on the two dicts. *)
Definition load_line (root : root_dir) (phase : Phase)
    (acc : gmap string string * gmap string Stats.t) (line : string)
  : result (gmap string string * gmap string Stats.t) :=
  match Py.split_ws (Py.strip line) with
  | [folder_name; id_; label_name] =>
      let classid_to_label := <[id_ := label_name]> (acc.1) in
      list_dir ← listdir_folder root phase folder_name;
      id ← Py.int id_;
      sorted_images ← Py.sorted image_key list_dir;
      Ok (classid_to_label,
          <[folder_name := {| Stats.id := id;
                              Stats.len := Py.len list_dir;
                              Stats.images := sorted_images |}]> (acc.2))
  | _ => Raise ValueError
  end.

Fixpoint load_lines (root : root_dir) (phase : Phase)
    (acc : gmap string string * gmap string Stats.t) (lines : list string)
  : result (gmap string string * gmap string Stats.t) :=
  match lines with
  | [] => Ok acc
  | line :: rest => acc' ← load_line root phase acc line; load_lines root phase acc' rest
  end.

Definition _load_annotations (root : root_dir) (phase : Phase)
  : result (gmap string string * gmap string Stats.t * list string) :=
  folder_names ← Py.sorted folder_key (listdir_phase root phase);
  dicts ← load_lines root phase (∅, ∅) (labels_txt root);
  Ok (dicts.1, dicts.2, folder_names).

Definition _get_len (phase : Phase) (folder_stats : gmap string Stats.t)
    (folder_names : list string) : result Z :=
  match phase with
  | Val => Ok (50 * Z.of_nat (size folder_stats))
  | Train =>
      lens ← mapM (λ folder, st ← Py.dict_get folder_stats folder; Ok (Stats.len st))
                  folder_names;
      Py.reduce_add lens
  end.

(** The constructor; [phase] is typed, so the assertion
    [phase in ("train", "val")] holds. *)
Definition __init__ (root : root_dir) (phase : Phase) : result ImageNetDataset :=
  loaded ← _load_annotations root phase;
  dataset_len ← _get_len phase (loaded.1.2) (loaded.2);
  Ok {| phase := phase;
        classid_to_label := loaded.1.1;
        _folder_stats := loaded.1.2;
        _folder_names := loaded.2;
        _dataset_len := dataset_len |}.

Definition __len__ (self : ImageNetDataset) : Z := _dataset_len self.

(** [self._folder_stats[self._folder_names[folder_i]]["len"]] *)
Definition folder_len_at (self : ImageNetDataset) (folder_i : Z) : result Z :=
  folder_name ← Py.getitem (_folder_names self) folder_i;
  st ← Py.dict_get (_folder_stats self) folder_name;
  Ok (Stats.len st).

(** The [while] loop of the train branch on the state [(sum_, folder_i)].
    [None]: the loop has not ended within [fuel] tests of its condition. *)
Fixpoint train_loop (fuel : nat) (self : ImageNetDataset) (global_idx sum_ folder_i : Z)
  : option (result (Z * Z)) :=
  match fuel with
  | O => None
  | S fuel' =>
      match folder_len_at self folder_i with
      | Raise e => Some (Raise e)
      | Ok n =>
          if sum_ + n <=? global_idx
          then train_loop fuel' self global_idx (sum_ + n) (folder_i + 1)
          else Some (Ok (sum_, folder_i))
      end
  end.

(** A number of tests of the loop condition after which the loop has ended:
    [folder_i] grows by one at each turn and raises once it reaches the
    length of [_folder_names]. *)
Definition loop_fuel (self : ImageNetDataset) (folder_i : Z) : nat :=
  S (Z.to_nat (Py.len (_folder_names self) - folder_i)).

(** The return statement: [folder_name, folder_stats[folder_name]["images"][local_idx]] *)
Definition folder_and_image (self : ImageNetDataset) (folder_name : string) (local_idx : Z)
  : result (string * string) :=
  st ← Py.dict_get (_folder_stats self) folder_name;
  image_name ← Py.getitem (Stats.images st) local_idx;
  Ok (folder_name, image_name).

Definition _calculate_image_folder_and_name (self : ImageNetDataset) (global_idx : Z)
  : option (result (string * string)) :=
  match phase self with
  | Val =>
      Some (folder_name ← Py.getitem (_folder_names self) (global_idx `div` 50);
            folder_and_image self folder_name (global_idx `mod` 50))
  | Train =>
      let folder_i := global_idx `div` 1300 in
      let sum_ := 1300 * folder_i in
      match train_loop (loop_fuel self folder_i) self global_idx sum_ folder_i with
      | None => None
      | Some (Raise e) => Some (Raise e)
      | Some (Ok (sum_, folder_i)) =>
          Some (folder_name ← Py.getitem (_folder_names self) folder_i;
                folder_and_image self folder_name (global_idx - sum_))
      end
  end.

Definition __getitem__ (self : ImageNetDataset) (global_idx : Z) : option (result item) :=
  match _calculate_image_folder_and_name self global_idx with
  | None => None
  | Some r =>
      Some (path ← r;
            st ← Py.dict_get (_folder_stats self) (path.1);
            Ok {| image := path; class_id := Stats.id st |})
  end.

(** ** The end-to-end example of the specification *)

Definition example_root : root_dir := {|
  dir_train := [("n02", Dir ["b_3.JPEG"; "b_1.JPEG"; "b_2.JPEG"]);
                ("n01", Dir ["a_2.JPEG"; "a_1.JPEG"])];
  dir_val := [];
  labels_txt := ["n01 0 tench"; "n02 1 goldfish"]
|}.

(** ** Concrete directory trees *)

Definition decimal (n : nat) : string := NilEmpty.string_of_uint (Nat.to_uint n).

(** [prefix_1.JPEG], ..., [prefix_n.JPEG] *)
Definition image_files (prefix : string) (n : nat) : list string :=
  (λ i, prefix +:+ "_" +:+ decimal i +:+ ".JPEG") <$> seq 1 n.

(** The dataset that [__init__] returns, for a tree on which it returns
    (an empty dataset stands for a construction that raises). *)
Definition dataset_of (root : root_dir) (phase : Phase) : ImageNetDataset :=
  match __init__ root phase with
  | Ok self => self
  | Raise _ => {| phase := phase; classid_to_label := ∅; _folder_stats := ∅;
                  _folder_names := []; _dataset_len := 0 |}
  end.

(** Train folders of 1, 1 and 1300 images; val folders of 50 images. The
    listings are not in numeric order. *)
Definition skew_root : root_dir := {|
  dir_train := [("n03", Dir (rev (image_files "c" 1300)));
                ("n01", Dir ["a_1.JPEG"]);
                ("n02", Dir ["b_1.JPEG"])];
  dir_val := [("n02", Dir (rev (image_files "b" 50)));
              ("n03", Dir (image_files "c" 50));
              ("n01", Dir (image_files "a" 50))];
  labels_txt := ["n01 0 tench"; "n02 1 goldfish"; "n03 2 shark"]
|}.

Definition skew_train : ImageNetDataset := dataset_of skew_root Train.
Definition skew_val : ImageNetDataset := dataset_of skew_root Val.

(** ** Vocabulary of the specification *)

Fixpoint sumZ (l : list Z) : Z :=
  match l with
  | [] => 0
  | x :: r => x + sumZ r
  end.

(** [item_count] of a folder identifier (0 for a folder without statistics). *)
Definition folder_len (self : ImageNetDataset) (name : string) : Z :=
  match _folder_stats self !! name with
  | Some st => Stats.len st
  | None => 0
  end.

Definition folder_lens (self : ImageNetDataset) : list Z :=
  folder_len self <$> _folder_names self.

(** Sum of [item_count] over [FolderIndex[0..p-1]]. *)
Definition cumulative_length_before (self : ImageNetDataset) (p : nat) : Z :=
  sumZ (take p (folder_lens self)).

(** The invariants of the data model for one folder of [FolderIndex]: it has
    statistics, its [len] is the number of its [images], and that number is
    50 in the val phase and at most 1300 in the train phase. *)
Definition folder_ok (self : ImageNetDataset) (name : string) : bool :=
  match _folder_stats self !! name with
  | Some st =>
      (Stats.len st =? Py.len (Stats.images st))
      && match phase self with
         | Val => Stats.len st =? 50
         | Train => Stats.len st <=? 1300
         end
  | None => false
  end.

(** A dataset as the data model describes it: every folder of [FolderIndex]
    satisfies [folder_ok], the stored length is the one [_get_len] computes,
    and in the val phase [FolderStats] has one entry per folder. *)
Definition well_formed (self : ImageNetDataset) : bool :=
  forallb (folder_ok self) (_folder_names self)
  && match _get_len (phase self) (_folder_stats self) (_folder_names self) with
     | Ok n => n =? _dataset_len self
     | Raise _ => false
     end
  && match phase self with
     | Val => (size (_folder_stats self) =? length (_folder_names self))%nat
     | Train => true
     end.

(** The while loop read on the list of the folder sizes from [folder_i] on. *)
Fixpoint scan (lens : list Z) (global_idx sum_ folder_i : Z) : result (Z * Z) :=
  match lens with
  | [] => Raise IndexError
  | n :: rest =>
      if sum_ + n <=? global_idx then scan rest global_idx (sum_ + n) (folder_i + 1)
      else Ok (sum_, folder_i)
  end.

(** Position of a folder identifier in [FolderIndex]. *)
Definition folder_position (self : ImageNetDataset) (name : string) : option nat :=
  fst <$> list_find (λ n, n = name) (_folder_names self).

(** Position in [FolderIndex] of the folder that [global_idx] resolves to. *)
Definition resolved_position (self : ImageNetDataset) (global_idx : Z) : option nat :=
  match __getitem__ self global_idx with
  | Some (Ok r) => folder_position self (image r).1
  | _ => None
  end.

(** [r] is the item at a position [(p, l)] of the two-level structure with
    [global_idx = cumulative_length_before p + l] and [0 <= l < item_count]. *)
Definition decomposes (self : ImageNetDataset) (global_idx : Z) (r : item) : Prop :=
  ∃ (p l : nat) (st : Stats.t),
    _folder_names self !! p = Some (image r).1
    ∧ _folder_stats self !! (image r).1 = Some st
    ∧ Stats.images st !! l = Some (image r).2
    ∧ global_idx = cumulative_length_before self p + Z.of_nat l
    ∧ 0 ≤ Z.of_nat l < Stats.len st.

(** Every valid index resolves to the item of its decomposition. *)
Definition resolves_by_decomposition (self : ImageNetDataset) : Prop :=
  ∀ g, 0 ≤ g < __len__ self →
       ∃ r, __getitem__ self g = Some (Ok r) ∧ decomposes self g r.

(** Resolution is monotonic in the folder position. *)
Definition monotonic (self : ImageNetDataset) : Prop :=
  ∀ i j pi pj, 0 ≤ i → i < j → j < __len__ self →
    resolved_position self i = Some pi → resolved_position self j = Some pj →
    (pi ≤ pj)%nat.

(** The first approximation of the train branch is exact at [global_idx]:
    the folders before position [global_idx div 1300] hold 1300 items each. *)
Definition approx_exact (self : ImageNetDataset) (global_idx : Z) : Prop :=
  cumulative_length_before self (Z.to_nat (global_idx `div` 1300))
  = 1300 * (global_idx `div` 1300).

(** ** Further definitions used by the statements *)

(** One turn of the loop, as a relation on the states [(sum_, folder_i)]. *)
Definition loop_step (self : ImageNetDataset) (global_idx : Z) (st st' : Z * Z) : Prop :=
  ∃ n, folder_len_at self (st.2) = Ok n ∧ st.1 + n ≤ global_idx
       ∧ st' = (st.1 + n, st.2 + 1).

(** What one line contributes: its three tokens and the statistics of its
    folder. This is the part of the loop body that does not read the dicts. *)
Record entry : Type := {
  e_folder : string;
  e_id : string;
  e_label : string;
  e_stats : Stats.t
}.

Definition line_entry (root : root_dir) (phase : Phase) (line : string) : result entry :=
  match Py.split_ws (Py.strip line) with
  | [folder_name; id_; label_name] =>
      list_dir ← listdir_folder root phase folder_name;
      id ← Py.int id_;
      sorted_images ← Py.sorted image_key list_dir;
      Ok {| e_folder := folder_name; e_id := id_; e_label := label_name;
            e_stats := {| Stats.id := id;
                          Stats.len := Py.len list_dir;
                          Stats.images := sorted_images |} |}
  | _ => Raise ValueError
  end.

(** The two assignments of the loop body. *)
Definition add_entry (acc : gmap string string * gmap string Stats.t) (e : entry)
  : gmap string string * gmap string Stats.t :=
  (<[e_id e := e_label e]> (acc.1), <[e_folder e := e_stats e]> (acc.2)).

(** The value bound to [k] by the last pair of key [k] in a list of pairs. *)
Fixpoint last_binding {V : Type} (k : string) (l : list (string * V)) : option V :=
  match l with
  | [] => None
  | (k', v) :: r =>
      match last_binding k r with
      | Some v' => Some v'
      | None => if String.eqb k' k then Some v else None
      end
  end.

Definition empty_feed_root : root_dir := {|
  dir_train := [("n01", Dir ["a_1.JPEG"])];
  dir_val := [];
  labels_txt := []
|}.

Definition append_line (root : root_dir) (line : string) : root_dir :=
  {| dir_train := dir_train root;
     dir_val := dir_val root;
     labels_txt := labels_txt root ++ [line] |}.

Definition dup_root : root_dir := {|
  dir_train := [("n02", Dir ["b_1.JPEG"]); ("n01", Dir ["a_10.JPEG"; "a_9.JPEG"])];
  dir_val := [];
  labels_txt := ["n01 0 tench"; "n02 0 goldfish"; "n01 1 shark"]
|}.


(** The separators of an image name. *)
Definition is_sep (c : ascii) : bool := Ascii.eqb c "." || Ascii.eqb c "_".

Fixpoint no_sep (s : string) : bool :=
  match s with
  | EmptyString => true
  | String c r => negb (is_sep c) && no_sep r
  end.

Definition no_number_root : root_dir := {|
  dir_train := [("n01", Dir ["a_1.JPEG"; "README"])];
  dir_val := [];
  labels_txt := ["n01 0 tench"]
|}.

(** Every folder of [FolderIndex] has an entry in [FolderStats]. *)
Definition all_present (self : ImageNetDataset) : Prop :=
  Forall (λ name, is_Some (_folder_stats self !! name)) (_folder_names self).

(** ** The image of an item *)

(** A decoded image: its shape and the value at every multi-index. *)
Record ndarray : Type := { shape : list nat; pixel : list nat → Z }.

(** [np.dstack((image, image, image))] for a 2-D [image] of shape (H, W): the
    result has shape (H, W, 3) and holds [image[i][j]] at [(i, j, c)]. *)
Definition dstack3 (image : ndarray) : ndarray :=
  {| shape := shape image ++ [3%nat];
     pixel := λ idx, pixel image (take 2 idx) |}.

(** [__getitem__] with its image. [decode folder_name image_name] stands for
    [np.array(Image.open(path.join(root_dir, phase, folder_name, image_name)),
    dtype=np.uint8)] and [transforms] for [self.transforms] ([None]: no
    transform; a transform is called with the image and returns a dict). The
    result is the pair of the values of "image" and "class_id". *)
Definition getitem_image (self : ImageNetDataset)
    (decode : string → string → result ndarray)
    (transforms : option (ndarray → result (gmap string ndarray)))
    (global_idx : Z) : option (result (ndarray * Z)) :=
  match _calculate_image_folder_and_name self global_idx with
  | None => None
  | Some r =>
      Some (path ← r;
            image ← decode (path.1) (path.2);
            let image := if (length (shape image) =? 2)%nat then dstack3 image else image in
            image ← match transforms with
                    | Some t => d ← t image; Py.dict_get d "image"
                    | None => Ok image
                    end;
            st ← Py.dict_get (_folder_stats self) (path.1);
            Ok (image, Stats.id st))
  end.

(** Every folder of [FolderIndex] that has statistics has distinct images. *)
Definition distinct_images (self : ImageNetDataset) : bool :=
  forallb (λ f, match _folder_stats self !! f with
                | Some st => bool_decide (NoDup (Stats.images st))
                | None => true
                end) (_folder_names self).

(** Directory trees with an entry that construction rejects. *)
Definition readme_root : root_dir := {|
  dir_train := [("n01", Dir ["a_1.JPEG"]); ("README", File)];
  dir_val := [("n01", File)];
  labels_txt := ["n01 0 tench"]
|}.

Definition blank_line_root : root_dir := {|
  dir_train := [("n01", Dir ["a_1.JPEG"])];
  dir_val := [("n01", Dir ["a_1.JPEG"])];
  labels_txt := ["n01 0 tench"; ""; "n01 zero tench"]
|}.

(** ** Basic facts *)

Example int_ex1 : Py.int "01440764" = Ok 1440764. Proof. reflexivity. Qed.
Example int_ex2 : Py.int " -1_0 " = Ok (-10). Proof. reflexivity. Qed.
Example int_ex3 : Py.int "1__0" = Raise ValueError. Proof. reflexivity. Qed.
Example int_ex4 : Py.int "" = Raise ValueError. Proof. reflexivity. Qed.
Example int_ex5 : Py.int (String "1" (String "2" (String "031" ""))) = Raise ValueError.
Proof. reflexivity. Qed.
Example split_ex1 : Py.split_ws (Py.strip "  n01 0  tench ") = ["n01"; "0"; "tench"].
Proof. reflexivity. Qed.
Example split_ex2 : Py.split_on "_" "a__b_" = ["a"; ""; "b"; ""]. Proof. reflexivity. Qed.
Example sorted_ex1 : Py.sorted Py.int ["10"; "9"; "09"; "1"] = Ok ["1"; "9"; "09"; "10"].
Proof. reflexivity. Qed.


Section Basics.
Context {A : Type}.
Implicit Types l : list A.

Lemma getitem_nonneg l i :
  0 ≤ i →
  Py.getitem l i = match l !! Z.to_nat i with Some x => Ok x | None => Raise IndexError end.
Proof.
  intros Hi. unfold Py.getitem.
  destruct (Z.ltb_spec i 0) as [?|_]; [lia|].
  destruct (Z.ltb_spec i 0) as [?|_]; [lia|]. simpl.
  destruct (Z.leb_spec (Z.of_nat (length l)) i) as [Hge|Hlt]; [|done].
  rewrite lookup_ge_None_2; [done | lia].
Qed.

Lemma getitem_neg l i :
  i < 0 → Py.getitem l i = 
    if i + Z.of_nat (length l) <? 0 then Raise IndexError
    else Py.getitem l (i + Z.of_nat (length l)).
Proof.
  intros Hi. unfold Py.getitem.
  destruct (Z.ltb_spec i 0) as [_|?]; [|lia].
  destruct (Z.ltb_spec (i + Z.of_nat (length l)) 0) as [?|Hge]; [done|].
  simpl. destruct (Z.ltb_spec (i + Z.of_nat (length l)) 0) as [?|_]; [lia|done].
Qed.

Lemma getitem_Ok l i x :
  0 ≤ i → l !! Z.to_nat i = Some x → Py.getitem l i = Ok x.
Proof. intros Hi Hl. by rewrite getitem_nonneg, Hl. Qed.

Lemma getitem_ge l i :
  Z.of_nat (length l) ≤ i → Py.getitem l i = Raise IndexError.
Proof.
  intros Hi. rewrite getitem_nonneg by lia.
  rewrite lookup_ge_None_2; [done | lia].
Qed.
End Basics.

Lemma sumZ_app l1 l2 : sumZ (l1 ++ l2) = sumZ l1 + sumZ l2.
Proof. induction l1 as [|x l1 IH]; simpl; lia. Qed.

Lemma sumZ_take_drop (l : list Z) k : sumZ (take k l) + sumZ (drop k l) = sumZ l.
Proof. by rewrite <- sumZ_app, take_drop. Qed.

Lemma sumZ_take_S (l : list Z) k x :
  l !! k = Some x → sumZ (take (S k) l) = sumZ (take k l) + x.
Proof.
  intros Hk. rewrite (take_S_r _ _ _ Hk), sumZ_app. simpl. lia.
Qed.

Lemma sumZ_upper (l : list Z) b :
  Forall (λ x, x ≤ b) l → sumZ l ≤ b * Z.of_nat (length l).
Proof. induction 1; simpl; lia. Qed.

Lemma sumZ_nonneg (l : list Z) : Forall (λ x, 0 ≤ x) l → 0 ≤ sumZ l.
Proof. induction 1; simpl; lia. Qed.

Lemma fold_left_add (l : list Z) x : fold_left Z.add l x = x + sumZ l.
Proof. revert x. induction l as [|y l IH]; intros x; simpl; [lia|]. rewrite IH. lia. Qed.

(** ** The refinement loop *)

Lemma getitem_Ok_lt {A : Type} (l : list A) i x :
  Py.getitem l i = Ok x → i < Z.of_nat (length l).
Proof.
  unfold Py.getitem. intros H.
  destruct (Z.ltb_spec i 0) as [Hneg|Hpos]; [lia|].
  destruct (Z.ltb_spec i 0) as [?|_]; [lia|]. simpl in H.
  destruct (Z.leb_spec (Z.of_nat (length l)) i); [done | lia].
Qed.

Section Scan.
Variable g : Z.

Lemma scan_Ok_inv lens s f s' p :
  scan lens g s f = Ok (s', p) →
  ∃ k x, p = f + Z.of_nat k ∧ lens !! k = Some x
         ∧ s' = s + sumZ (take k lens) ∧ g < s' + x ∧ (s ≤ g → s' ≤ g).
Proof.
  revert s f. induction lens as [|n rest IH]; intros s f H; simpl in H; [done|].
  destruct (Z.leb_spec (s + n) g) as [Hle|Hgt].
  - destruct (IH _ _ H) as (k & x & -> & Hk & -> & Hx & Hs).
    exists (S k), x. simpl. repeat split; [lia | done | lia | lia | lia].
  - injection H as <- <-. exists 0%nat, n. simpl. repeat split; [lia | lia | lia | done].
Qed.

Lemma scan_is_Ok lens s f :
  s ≤ g → g < s + sumZ lens → ∃ s' p, scan lens g s f = Ok (s', p).
Proof.
  revert s f. induction lens as [|n rest IH]; intros s f Hs Hg; simpl in *; [lia|].
  destruct (Z.leb_spec (s + n) g) as [Hle|Hgt]; [|eauto].
  apply IH; lia.
Qed.

Lemma scan_Raise lens s f :
  Forall (λ x, 0 ≤ x) lens → s + sumZ lens ≤ g → scan lens g s f = Raise IndexError.
Proof.
  intros Hpos. revert s f.
  induction Hpos as [|n rest Hn Hrest IH]; intros s f Hg; simpl in *; [done|].
  pose proof (sumZ_nonneg _ Hrest).
  destruct (Z.leb_spec (s + n) g) as [Hle|Hgt]; [|lia].
  apply IH. lia.
Qed.

Lemma scan_raises_IndexError lens s f e :
  scan lens g s f = Raise e → e = IndexError.
Proof.
  revert s f. induction lens as [|n rest IH]; intros s f H; simpl in H; [congruence|].
  destruct (s + n <=? g); [eauto | done].
Qed.
End Scan.

Section Loop.
Variable self : ImageNetDataset.

Lemma folder_lens_length : length (folder_lens self) = length (_folder_names self).
Proof. unfold folder_lens. by rewrite length_fmap. Qed.

Lemma folder_len_at_present i :
  all_present self → 0 ≤ i →
  folder_len_at self i =
    match folder_lens self !! Z.to_nat i with
    | Some n => Ok n
    | None => Raise IndexError
    end.
Proof.
  intros Hall Hi. unfold folder_len_at, folder_lens.
  rewrite getitem_nonneg by done. rewrite list_lookup_fmap.
  destruct (_folder_names self !! Z.to_nat i) as [name|] eqn:Hname; simpl; [|done].
  unfold all_present in Hall. rewrite Forall_lookup in Hall.
  destruct (Hall _ _ Hname) as [st Hst].
  unfold Py.dict_get, folder_len. by rewrite Hst.
Qed.

Lemma folder_len_at_Ok_lt i n :
  folder_len_at self i = Ok n → i < Py.len (_folder_names self).
Proof.
  unfold folder_len_at. intros H.
  destruct (Py.getitem (_folder_names self) i) as [name|e] eqn:Hget; [|done].
  by apply getitem_Ok_lt in Hget.
Qed.

(** The loop ends: [loop_fuel] tests of the condition are enough, whatever
    the dataset and the index. *)
Lemma train_loop_total fuel g s f :
  (Z.to_nat (Py.len (_folder_names self) - f) < fuel)%nat →
  train_loop fuel self g s f ≠ None.
Proof.
  revert s f. induction fuel as [|fuel IH]; intros s f Hfuel; [lia|].
  simpl. destruct (folder_len_at self f) as [n|e] eqn:Hlen; [|done].
  apply folder_len_at_Ok_lt in Hlen.
  destruct (s + n <=? g); [|done].
  apply IH. lia.
Qed.

Lemma train_loop_scan fuel g s f :
  all_present self → 0 ≤ f →
  (Z.to_nat (Py.len (_folder_names self) - f) < fuel)%nat →
  train_loop fuel self g s f = Some (scan (drop (Z.to_nat f) (folder_lens self)) g s f).
Proof.
  intros Hall. revert s f.
  induction fuel as [|fuel IH]; intros s f Hf Hfuel; [lia|].
  simpl. rewrite folder_len_at_present by done.
  destruct (folder_lens self !! Z.to_nat f) as [n|] eqn:Hn.
  - rewrite (drop_S _ _ _ Hn). simpl.
    apply lookup_lt_Some in Hn. rewrite folder_lens_length in Hn.
    destruct (s + n <=? g); [|done].
    rewrite IH by (unfold Py.len in *; lia).
    by replace (Z.to_nat (f + 1)) with (S (Z.to_nat f)) by lia.
  - apply lookup_ge_None in Hn. by rewrite drop_ge.
Qed.

Lemma calculate_total g : _calculate_image_folder_and_name self g ≠ None.
Proof.
  unfold _calculate_image_folder_and_name.
  destruct (phase self); [|done].
  pose proof (train_loop_total (loop_fuel self (g `div` 1300)) g
                (1300 * (g `div` 1300)) (g `div` 1300)) as Htot.
  destruct (train_loop _ _ _ _ _) as [[[s p]|e]|]; [done | done |].
  exfalso. apply Htot; [|done]. unfold loop_fuel. lia.
Qed.

Lemma getitem_total g : __getitem__ self g ≠ None.
Proof.
  unfold __getitem__. pose proof (calculate_total g).
  by destruct (_calculate_image_folder_and_name self g).
Qed.
End Loop.

(** ** What [well_formed] gives *)

Section WellFormed.
Variable self : ImageNetDataset.
Hypothesis Hwf : well_formed self = true.

Lemma wf_folder name :
  name ∈ _folder_names self →
  ∃ st, _folder_stats self !! name = Some st
        ∧ Stats.len st = Py.len (Stats.images st)
        ∧ match phase self with
          | Val => Stats.len st = 50
          | Train => Stats.len st ≤ 1300
          end.
Proof.
  intros Hin. unfold well_formed in Hwf.
  apply andb_prop in Hwf as [Hwf' _]. apply andb_prop in Hwf' as [Hall _].
  rewrite forallb_forall in Hall. apply list_elem_of_In in Hin.
  specialize (Hall _ Hin). unfold folder_ok in Hall.
  destruct (_folder_stats self !! name) as [st|]; [|done].
  apply andb_prop in Hall as [H1 H2]. exists st. split; [done|]. split; [lia|].
  destruct (phase self); lia.
Qed.

Lemma wf_all_present : all_present self.
Proof.
  apply Forall_forall. intros name Hin.
  destruct (wf_folder name Hin) as (st & -> & _). eauto.
Qed.

Lemma wf_lens_nonneg : Forall (λ x, 0 ≤ x) (folder_lens self).
Proof.
  unfold folder_lens. rewrite Forall_fmap. apply Forall_forall. intros name Hin.
  destruct (wf_folder name Hin) as (st & Hst & Hlen & _). simpl.
  unfold folder_len. rewrite Hst, Hlen. unfold Py.len. lia.
Qed.

Lemma wf_lens_train : phase self = Train → Forall (λ x, x ≤ 1300) (folder_lens self).
Proof.
  intros Hph. unfold folder_lens. rewrite Forall_fmap. apply Forall_forall.
  intros name Hin. destruct (wf_folder name Hin) as (st & Hst & _ & Hb).
  rewrite Hph in Hb. simpl. unfold folder_len. by rewrite Hst.
Qed.

Lemma wf_lens_val : phase self = Val → Forall (λ x, x = 50) (folder_lens self).
Proof.
  intros Hph. unfold folder_lens. rewrite Forall_fmap. apply Forall_forall.
  intros name Hin. destruct (wf_folder name Hin) as (st & Hst & _ & Hb).
  rewrite Hph in Hb. simpl. unfold folder_len. by rewrite Hst.
Qed.

Lemma wf_get_len :
  _get_len (phase self) (_folder_stats self) (_folder_names self) = Ok (__len__ self).
Proof.
  unfold well_formed in Hwf. apply andb_prop in Hwf as [Hwf' _].
  apply andb_prop in Hwf' as [_ Hlen]. unfold __len__.
  destruct (_get_len _ _ _) as [n|]; [|done]. f_equal. lia.
Qed.

Lemma wf_len_val : phase self = Val → __len__ self = 50 * Py.len (_folder_names self).
Proof.
  intros Hph. pose proof wf_get_len as Hlen.
  unfold well_formed in Hwf. apply andb_prop in Hwf as [_ Hsize].
  rewrite Hph in *. simpl in Hlen. injection Hlen as <-.
  apply Nat.eqb_eq in Hsize. unfold Py.len. rewrite Hsize. reflexivity.
Qed.
End WellFormed.

Lemma dict_get_Some {V : Type} (d : gmap string V) k v :
  d !! k = Some v → Py.dict_get d k = Ok v.
Proof. unfold Py.dict_get. by intros ->. Qed.

Lemma dict_get_None {V : Type} (d : gmap string V) k :
  d !! k = None → Py.dict_get d k = Raise KeyError.
Proof. unfold Py.dict_get. by intros ->. Qed.

Lemma mapM_lens (stats : gmap string Stats.t) (names : list string) :
  Forall (λ name, is_Some (stats !! name)) names →
  mapM (λ folder, st ← Py.dict_get stats folder; Ok (Stats.len st)) names
  = Ok ((λ name, match stats !! name with Some st => Stats.len st | None => 0 end) <$> names).
Proof.
  induction 1 as [|name names [st Hst] _ IH]; simpl; [done|].
  rewrite IH. unfold Py.dict_get. rewrite Hst. done.
Qed.

Lemma mapM_lens_KeyError (stats : gmap string Stats.t) (names : list string) name :
  name ∈ names → stats !! name = None →
  mapM (λ folder, st ← Py.dict_get stats folder; Ok (Stats.len st)) names = Raise KeyError.
Proof.
  intros Hin Hnone. induction Hin as [name names|name x names Hin IH]; simpl.
  - unfold Py.dict_get. by rewrite Hnone.
  - destruct (stats !! x) as [st|] eqn:Hx.
    + rewrite (dict_get_Some _ _ _ Hx). simpl. by rewrite IH.
    + by rewrite (dict_get_None _ _ Hx).
Qed.

Lemma get_len_train_present (stats : gmap string Stats.t) (names : list string) n :
  _get_len Train stats names = Ok n →
  names ≠ [] ∧ Forall (λ name, is_Some (stats !! name)) names.
Proof.
  unfold _get_len. intros H. split.
  - intros ->. done.
  - apply Forall_forall. intros name Hin.
    destruct (stats !! name) eqn:Hst; [eauto|].
    by rewrite (mapM_lens_KeyError _ _ _ Hin Hst) in H.
Qed.

Lemma get_len_train_sum (self : ImageNetDataset) n :
  _get_len Train (_folder_stats self) (_folder_names self) = Ok n →
  n = sumZ (folder_lens self).
Proof.
  intros H. destruct (get_len_train_present _ _ _ H) as [Hne Hall].
  unfold _get_len in H. rewrite mapM_lens in H by done.
  fold (folder_len self) in H. fold (folder_lens self) in H.
  unfold Py.reduce_add in H. destruct (folder_lens self) as [|x r]; [done|].
  injection H as <-. by rewrite fold_left_add.
Qed.

Lemma wf_len_train (self : ImageNetDataset) :
  well_formed self = true → phase self = Train → __len__ self = sumZ (folder_lens self).
Proof.
  intros Hwf Hph. pose proof (wf_get_len self Hwf) as H. rewrite Hph in H.
  by apply get_len_train_sum.
Qed.

(** ** The train branch on valid indices *)

Lemma train_loop_step self g fuel s f s' f' :
  loop_step self g (s, f) (s', f') →
  train_loop (S fuel) self g s f = train_loop fuel self g s' f'.
Proof.
  intros (n & Hn & Hle & Heq). simpl in *. injection Heq as -> ->.
  rewrite Hn. by destruct (Z.leb_spec (s + n) g); [|lia].
Qed.

Section TrainValid.
Variable self : ImageNetDataset.
Variable g : Z.
Hypothesis Hph : phase self = Train.
Hypothesis Hwf : well_formed self = true.
Hypothesis Hg : 0 ≤ g < __len__ self.

Let k0 := g `div` 1300.
Let lens := folder_lens self.

Lemma approx_bounds : 0 ≤ k0 ∧ 1300 * k0 ≤ g < 1300 * k0 + 1300.
Proof.
  unfold k0. pose proof (Z.div_mod g 1300 ltac:(lia)).
  pose proof (Z.mod_pos_bound g 1300 ltac:(lia)).
  split; [apply Z.div_pos; lia | lia].
Qed.

Lemma take_lens_le k : sumZ (take k lens) ≤ 1300 * Z.of_nat k.
Proof.
  pose proof (wf_lens_train self Hwf Hph) as Hle. fold lens in Hle.
  pose proof (sumZ_upper (take k lens) 1300 (Forall_take _ _ _ Hle)) as H.
  rewrite length_take in H. lia.
Qed.

Lemma approx_lt_length : k0 < Py.len (_folder_names self).
Proof.
  pose proof approx_bounds. pose proof (wf_len_train self Hwf Hph) as Hlen.
  fold lens in Hlen.
  pose proof (sumZ_upper lens 1300 (wf_lens_train self Hwf Hph)) as Hup.
  unfold lens in Hup. rewrite folder_lens_length in Hup. fold lens in Hup.
  unfold Py.len. lia.
Qed.

Lemma approx_below_rest : g < 1300 * k0 + sumZ (drop (Z.to_nat k0) lens).
Proof.
  pose proof approx_bounds. pose proof (wf_len_train self Hwf Hph) as Hlen.
  fold lens in Hlen.
  pose proof (sumZ_take_drop lens (Z.to_nat k0)).
  pose proof (take_lens_le (Z.to_nat k0)). lia.
Qed.

Lemma train_scan_in_range :
  ∃ k x,
    train_loop (loop_fuel self k0) self g (1300 * k0) k0
    = Some (Ok (1300 * k0 + sumZ (take k (drop (Z.to_nat k0) lens)), k0 + Z.of_nat k))
    ∧ lens !! (Z.to_nat k0 + k)%nat = Some x
    ∧ 1300 * k0 + sumZ (take k (drop (Z.to_nat k0) lens)) ≤ g
    ∧ g < 1300 * k0 + sumZ (take k (drop (Z.to_nat k0) lens)) + x.
Proof.
  pose proof approx_bounds as [Hk0 [Hlo Hhi]].
  rewrite train_loop_scan; [| by apply wf_all_present | done | unfold loop_fuel; lia].
  fold lens.
  destruct (scan_is_Ok g (drop (Z.to_nat k0) lens) (1300 * k0) k0 Hlo approx_below_rest)
    as (s' & p & Hscan).
  destruct (scan_Ok_inv _ _ _ _ _ _ Hscan) as (k & x & -> & Hx & -> & Hlt & Hle).
  exists k, x. rewrite Hscan. rewrite lookup_drop in Hx. auto.
Qed.

(** Every state the loop goes through has its folder position inside
    [FolderIndex], between the first approximation and the last folder. *)
Lemma loop_states_in_bounds st :
  rtc (loop_step self g) (1300 * k0, k0) st →
  k0 ≤ st.2 < Py.len (_folder_names self)
  ∧ st.1 = 1300 * k0 + sumZ (take (Z.to_nat (st.2 - k0)) (drop (Z.to_nat k0) lens))
  ∧ st.1 ≤ g.
Proof.
  pose proof approx_bounds as [Hk0 [Hlo Hhi]].
  intros Hrtc. apply rtc_nsteps in Hrtc as [m Hm].
  revert st Hm. induction m as [|m IH]; intros st Hm.
  - inversion Hm; subst. simpl. replace (k0 - k0) with 0 by lia. simpl.
    pose proof approx_lt_length. lia.
  - apply nsteps_inv_r in Hm as (mid & Hmid & Hstep).
    destruct (IH _ Hmid) as ([Hlo' Hhi'] & Hsum & Hle). clear IH Hmid.
    destruct Hstep as (n & Hn & Hng & ->). destruct mid as [s f]. simpl in *.
    rewrite folder_len_at_present in Hn by (by apply wf_all_present || lia).
    fold lens in Hn.
    destruct (lens !! Z.to_nat f) as [n'|] eqn:Hf; [|done]. injection Hn as ->.
    assert (Hdrop : drop (Z.to_nat k0) lens !! Z.to_nat (f - k0) = Some n).
    { rewrite lookup_drop. by replace (Z.to_nat k0 + Z.to_nat (f - k0))%nat
        with (Z.to_nat f) by lia. }
    assert (Hnew : s + n = 1300 * k0
               + sumZ (take (Z.to_nat (f + 1 - k0)) (drop (Z.to_nat k0) lens))).
    { replace (Z.to_nat (f + 1 - k0)) with (S (Z.to_nat (f - k0))) by lia.
      rewrite (sumZ_take_S _ _ _ Hdrop). lia. }
    split; [|split; [done | lia]].
    split; [lia|].
    destruct (Z.lt_ge_cases (f + 1) (Py.len (_folder_names self))) as [|Hge]; [done|].
    exfalso. pose proof approx_below_rest as Hrest.
    rewrite take_ge in Hnew; [lia|].
    rewrite length_drop. unfold lens. rewrite folder_lens_length.
    unfold Py.len in *. lia.
Qed.
End TrainValid.

Lemma train_loop_reaches fuel self g s f s' p :
  train_loop fuel self g s f = Some (Ok (s', p)) → rtc (loop_step self g) (s, f) (s', p).
Proof.
  revert s f. induction fuel as [|fuel IH]; intros s f H; simpl in H; [done|].
  destruct (folder_len_at self f) as [n|e] eqn:Hn; [|done].
  destruct (Z.leb_spec (s + n) g) as [Hle|Hgt].
  - eapply rtc_l; [|by apply IH]. exists n. auto.
  - injection H as <- <-. apply rtc_refl.
Qed.

(** What the call returns from the state in which the loop ends. *)
Lemma calculate_train self g s p :
  phase self = Train →
  train_loop (loop_fuel self (g `div` 1300)) self g (1300 * (g `div` 1300)) (g `div` 1300)
  = Some (Ok (s, p)) →
  _calculate_image_folder_and_name self g
  = Some (folder_name ← Py.getitem (_folder_names self) p;
          folder_and_image self folder_name (g - s)).
Proof. intros Hph Hloop. unfold _calculate_image_folder_and_name. by rewrite Hph, Hloop. Qed.

Lemma getitem_of_parts self g p l name st img :
  0 ≤ p → 0 ≤ l →
  _calculate_image_folder_and_name self g
  = Some (folder_name ← Py.getitem (_folder_names self) p;
          folder_and_image self folder_name l) →
  _folder_names self !! Z.to_nat p = Some name →
  _folder_stats self !! name = Some st →
  Stats.images st !! Z.to_nat l = Some img →
  __getitem__ self g = Some (Ok {| image := (name, img); class_id := Stats.id st |}).
Proof.
  intros Hp Hl Hcalc Hname Hst Himg. unfold __getitem__. rewrite Hcalc.
  rewrite (getitem_Ok _ _ _ Hp Hname). simpl.
  unfold folder_and_image. rewrite (dict_get_Some _ _ _ Hst). simpl.
  rewrite (getitem_Ok _ _ _ Hl Himg). simpl.
  by rewrite (dict_get_Some _ _ _ Hst).
Qed.

(** ** The val branch on valid indices *)

Lemma val_resolve self g :
  phase self = Val → well_formed self = true → 0 ≤ g < __len__ self →
  ∃ name st img,
    _folder_names self !! Z.to_nat (g `div` 50) = Some name
    ∧ _folder_stats self !! name = Some st
    ∧ Stats.images st !! Z.to_nat (g `mod` 50) = Some img
    ∧ Stats.len st = 50
    ∧ __getitem__ self g = Some (Ok {| image := (name, img); class_id := Stats.id st |}).
Proof.
  intros Hph Hwf Hg. rewrite (wf_len_val self Hwf Hph) in Hg. unfold Py.len in Hg.
  pose proof (Z.div_mod g 50 ltac:(lia)).
  pose proof (Z.mod_pos_bound g 50 ltac:(lia)).
  assert (0 ≤ g `div` 50) by (apply Z.div_pos; lia).
  destruct (lookup_lt_is_Some_2 (_folder_names self) (Z.to_nat (g `div` 50)))
    as [name Hname]; [lia|].
  destruct (wf_folder self Hwf name) as (st & Hst & Hlen & H50).
  { apply list_elem_of_lookup. eauto. }
  rewrite Hph in H50. unfold Py.len in Hlen.
  destruct (lookup_lt_is_Some_2 (Stats.images st) (Z.to_nat (g `mod` 50)))
    as [img Himg]; [lia|].
  exists name, st, img. repeat split; try done.
  eapply getitem_of_parts; [| |by unfold _calculate_image_folder_and_name; rewrite Hph|..];
    [lia | lia | done..].
Qed.

(** ** The concrete datasets *)


Lemma dataset_of_init root phase :
  is_ok (__init__ root phase) = true → __init__ root phase = Ok (dataset_of root phase).
Proof. unfold dataset_of. by destruct (__init__ root phase). Qed.

(** The end-to-end example of the specification: two train folders of 2 and
    3 items. *)
Example end_to_end_example :
  ∃ self, __init__ example_root Train = Ok self
    ∧ __len__ self = 5
    ∧ __getitem__ self 0 = Some (Ok {| image := ("n01", "a_1.JPEG"); class_id := 0 |})
    ∧ __getitem__ self 1 = Some (Ok {| image := ("n01", "a_2.JPEG"); class_id := 0 |})
    ∧ __getitem__ self 2 = Some (Ok {| image := ("n02", "b_1.JPEG"); class_id := 1 |})
    ∧ __getitem__ self 4 = Some (Ok {| image := ("n02", "b_3.JPEG"); class_id := 1 |})
    ∧ __getitem__ self 5 = Some (Raise IndexError).
Proof.
  exists (dataset_of example_root Train).
  split; [apply dataset_of_init; vm_compute; reflexivity|].
  repeat split; vm_compute; reflexivity.
Qed.

Lemma skew_train_init : __init__ skew_root Train = Ok skew_train.
Proof. apply dataset_of_init. vm_compute. reflexivity. Qed.

Lemma skew_val_init : __init__ skew_root Val = Ok skew_val.
Proof. apply dataset_of_init. vm_compute. reflexivity. Qed.

Lemma skew_train_wf : well_formed skew_train = true ∧ phase skew_train = Train.
Proof. split; vm_compute; reflexivity. Qed.

Lemma skew_val_wf : well_formed skew_val = true ∧ phase skew_val = Val.
Proof. split; vm_compute; reflexivity. Qed.

(** ** Properties of the index resolver *)

(** C5. Train phase, folder sizes at most 1300, [0 <= global_idx < length]:
    the refinement loop ends normally (no exception, within [loop_fuel] tests
    of its condition) in a state [(sum_, p)] that it reaches by its own steps;
    every state it goes through, the last one included, has its folder
    position inside [FolderIndex]; and the first approximation
    [global_idx div 1300] is at most every position visited, so at most the
    final one. *)
Theorem C5_train_loop_terminates_in_bounds (self : ImageNetDataset) (g : Z) :
  phase self = Train → well_formed self = true → 0 ≤ g < __len__ self →
  (∃ sum_ p,
      train_loop (loop_fuel self (g `div` 1300)) self g (1300 * (g `div` 1300)) (g `div` 1300)
      = Some (Ok (sum_, p))
      ∧ rtc (loop_step self g) (1300 * (g `div` 1300), g `div` 1300) (sum_, p)
      ∧ g `div` 1300 ≤ p)
  ∧ (∀ st, rtc (loop_step self g) (1300 * (g `div` 1300), g `div` 1300) st →
           0 ≤ st.2 < Py.len (_folder_names self) ∧ g `div` 1300 ≤ st.2).
Proof.
  intros Hph Hwf Hg.
  pose proof (approx_bounds self g Hg) as [Hk0 _].
  split.
  - destruct (train_scan_in_range self g Hph Hwf Hg) as (k & x & Hloop & _).
    eexists _, _. split; [exact Hloop|]. split; [|lia].
    by eapply train_loop_reaches.
  - intros st Hst.
    destruct (loop_states_in_bounds self g Hph Hwf Hg st Hst) as ([? ?] & _). lia.
Qed.

Lemma C5_witness :
  (∃ sum_ p,
      train_loop (loop_fuel skew_train (1301 `div` 1300)) skew_train 1301
        (1300 * (1301 `div` 1300)) (1301 `div` 1300) = Some (Ok (sum_, p))
      ∧ rtc (loop_step skew_train 1301) (1300 * (1301 `div` 1300), 1301 `div` 1300) (sum_, p)
      ∧ 1301 `div` 1300 ≤ p)
  ∧ (∀ st, rtc (loop_step skew_train 1301) (1300 * (1301 `div` 1300), 1301 `div` 1300) st →
           0 ≤ st.2 < Py.len (_folder_names skew_train) ∧ 1301 `div` 1300 ≤ st.2).
Proof.
  apply (C5_train_loop_terminates_in_bounds skew_train 1301).
  - vm_compute. reflexivity.
  - vm_compute. reflexivity.
  - split; vm_compute; [discriminate | reflexivity].
Defined.

(** C8. Val phase. Whatever the dataset and the index, [resolve] is the
    chain of the three lookups [FolderIndex[global_idx div 50]],
    [FolderStats[folder_id]] and [images[global_idx mod 50]], with the [id]
    of the statistics as class id. On a dataset that satisfies the invariants
    of the data model the three lookups succeed for every
    [0 <= global_idx < length], so [resolve] returns that folder, that item
    and that class id. *)
Theorem C8_val_resolve (self : ImageNetDataset) :
  phase self = Val →
  (∀ g, __getitem__ self g
        = Some (folder_id ← Py.getitem (_folder_names self) (g `div` 50);
                st ← Py.dict_get (_folder_stats self) folder_id;
                item_name ← Py.getitem (Stats.images st) (g `mod` 50);
                Ok {| image := (folder_id, item_name); class_id := Stats.id st |}))
  ∧ (well_formed self = true →
     ∀ g, 0 ≤ g < __len__ self →
       ∃ folder_id st item_name,
         _folder_names self !! Z.to_nat (g `div` 50) = Some folder_id
         ∧ _folder_stats self !! folder_id = Some st
         ∧ Stats.images st !! Z.to_nat (g `mod` 50) = Some item_name
         ∧ __getitem__ self g
           = Some (Ok {| image := (folder_id, item_name); class_id := Stats.id st |})).
Proof.
  intros Hph. split.
  - intros g. unfold __getitem__, _calculate_image_folder_and_name. rewrite Hph.
    f_equal. destruct (Py.getitem (_folder_names self) (g `div` 50)) as [name|]; [|done].
    simpl. unfold folder_and_image.
    destruct (Py.dict_get (_folder_stats self) name) as [st|] eqn:Hst; [|done].
    simpl. destruct (Py.getitem (Stats.images st) (g `mod` 50)) as [img|]; [|done].
    simpl. by rewrite Hst.
  - intros Hwf g Hg.
    destruct (val_resolve self g Hph Hwf Hg) as (name & st & img & H1 & H2 & H3 & _ & H4).
    by exists name, st, img.
Qed.

Lemma C8_witness :
  ∃ folder_id st item_name,
    _folder_names skew_val !! Z.to_nat (149 `div` 50) = Some folder_id
    ∧ _folder_stats skew_val !! folder_id = Some st
    ∧ Stats.images st !! Z.to_nat (149 `mod` 50) = Some item_name
    ∧ __getitem__ skew_val 149
      = Some (Ok {| image := (folder_id, item_name); class_id := Stats.id st |}).
Proof.
  destruct (C8_val_resolve skew_val) as [_ Hres].
  - vm_compute. reflexivity.
  - apply (Hres ltac:(vm_compute; reflexivity) 149).
    split; vm_compute; [discriminate | reflexivity].
Defined.

(** ** Where the resolver returns the item of the decomposition *)

(** Train phase, valid index: the call returns an item of the folder in which
    the loop ends, at the offset counted from the loop's own running sum,
    which starts at [1300 * (global_idx div 1300)]. *)
Lemma train_resolve (self : ImageNetDataset) (g : Z) :
  phase self = Train → well_formed self = true → 0 ≤ g < __len__ self →
  ∃ (k : nat) name st img,
    let k0 := Z.to_nat (g `div` 1300) in
    let sum_ := 1300 * (g `div` 1300) + sumZ (take k (drop k0 (folder_lens self))) in
    _folder_names self !! (k0 + k)%nat = Some name
    ∧ _folder_stats self !! name = Some st
    ∧ Stats.images st !! Z.to_nat (g - sum_) = Some img
    ∧ sum_ ≤ g < sum_ + Stats.len st
    ∧ __getitem__ self g = Some (Ok {| image := (name, img); class_id := Stats.id st |}).
Proof.
  intros Hph Hwf Hg.
  pose proof (approx_bounds self g Hg) as [Hk0 _].
  destruct (train_scan_in_range self g Hph Hwf Hg) as (k & x & Hloop & Hx & Hlo & Hhi).
  unfold folder_lens in Hx. rewrite list_lookup_fmap in Hx.
  destruct (_folder_names self !! (Z.to_nat (g `div` 1300) + k)%nat) as [name|] eqn:Hname;
    [|done].
  simpl in Hx. injection Hx as <-.
  destruct (wf_folder self Hwf name) as (st & Hst & Hlen & _).
  { apply list_elem_of_lookup. eauto. }
  unfold folder_len in Hhi. rewrite Hst in Hhi. fold (folder_lens self) in *.
  set (sum_ := 1300 * (g `div` 1300)
               + sumZ (take k (drop (Z.to_nat (g `div` 1300)) (folder_lens self)))) in *.
  destruct (lookup_lt_is_Some_2 (Stats.images st) (Z.to_nat (g - sum_))) as [img Himg].
  { unfold Py.len in Hlen. lia. }
  exists k, name, st, img. simpl. fold sum_.
  repeat split; try done.
  eapply getitem_of_parts; [| |by apply calculate_train|..]; try done; [lia | lia |].
  by replace (Z.to_nat (g `div` 1300 + Z.of_nat k))
    with (Z.to_nat (g `div` 1300) + k)%nat by lia.
Qed.

Lemma sumZ_take_add (l : list Z) a b :
  sumZ (take a l) + sumZ (take b (drop a l)) = sumZ (take (a + b) l).
Proof.
  rewrite take_drop_commute.
  rewrite <- (sumZ_take_drop (take (a + b) l) a).
  rewrite take_take. by replace (a `min` (a + b))%nat with a by lia.
Qed.

(** Train phase, valid index at which the first approximation is exact: the
    item returned is the one of the decomposition. *)
Lemma train_decomposes_exact (self : ImageNetDataset) (g : Z) :
  phase self = Train → well_formed self = true → 0 ≤ g < __len__ self →
  approx_exact self g →
  ∃ r, __getitem__ self g = Some (Ok r) ∧ decomposes self g r.
Proof.
  intros Hph Hwf Hg Hexact.
  destruct (train_resolve self g Hph Hwf Hg)
    as (k & name & st & img & Hname & Hst & Himg & Hrange & Hget).
  simpl in *. eexists. split; [exact Hget|].
  unfold approx_exact, cumulative_length_before in Hexact.
  exists (Z.to_nat (g `div` 1300) + k)%nat, (Z.to_nat (g - (1300 * (g `div` 1300)
             + sumZ (take k (drop (Z.to_nat (g `div` 1300)) (folder_lens self)))))), st.
  simpl. repeat split; try done; try lia.
  unfold cumulative_length_before. rewrite <- sumZ_take_add. lia.
Qed.

(** Below 1300 the first approximation is position 0 and is exact. *)
Lemma approx_exact_small (self : ImageNetDataset) (g : Z) :
  0 ≤ g < 1300 → approx_exact self g.
Proof.
  intros Hg. unfold approx_exact, cumulative_length_before.
  by rewrite (Z.div_small g 1300 Hg).
Qed.

Lemma sumZ_const (l : list Z) c : Forall (λ x, x = c) l → sumZ l = c * Z.of_nat (length l).
Proof. induction 1; simpl; lia. Qed.

(** Val phase, valid index: the item returned is the one of the
    decomposition, every folder before it holding 50 items. *)
Lemma val_decomposes (self : ImageNetDataset) (g : Z) :
  phase self = Val → well_formed self = true → 0 ≤ g < __len__ self →
  ∃ r, __getitem__ self g = Some (Ok r) ∧ decomposes self g r.
Proof.
  intros Hph Hwf Hg.
  destruct (val_resolve self g Hph Hwf Hg) as (name & st & img & Hname & Hst & Himg & H50 & Hget).
  eexists. split; [exact Hget|].
  pose proof (Z.div_mod g 50 ltac:(lia)).
  pose proof (Z.mod_pos_bound g 50 ltac:(lia)).
  assert (0 ≤ g `div` 50) by (apply Z.div_pos; lia).
  exists (Z.to_nat (g `div` 50)), (Z.to_nat (g `mod` 50)), st. simpl.
  repeat split; try done; try lia.
  unfold cumulative_length_before.
  rewrite (sumZ_const _ 50) by (apply Forall_take; by apply wf_lens_val).
  rewrite length_take, folder_lens_length.
  apply lookup_lt_Some in Hname. lia.
Qed.

Lemma no_decomposition_after_short_folder (self : ImageNetDataset) :
  _folder_names self = ["n01"; "n02"; "n03"] →
  folder_lens self = [1; 1; 1300] →
  Stats.len <$> _folder_stats self !! "n02" = Some 1 →
  ¬ decomposes self 1300 {| image := ("n02", "b_1.JPEG"); class_id := 1 |}.
Proof.
  intros Hnames Hlens Hst (p & l & st & Hp & Hst' & _ & Hsum & Hl).
  unfold cumulative_length_before in Hsum. rewrite Hlens in Hsum.
  rewrite Hnames in Hp. simpl in *.
  rewrite Hst' in Hst. injection Hst as Hst.
  destruct p as [|[|[|p]]]; simpl in *; try done. lia.
Qed.

(** C1. On a well-formed train dataset (folders of 1, 1 and 1300 items) the
    valid index 1300 resolves to the only item of the second folder, which has
    no decomposition [1300 = cumulative_length_before p + l]: the running sum
    starts at [1300 * 1] although the first folder holds one item. *)
Theorem C1_decomposition_fails_on_short_folders :
  __init__ skew_root Train = Ok skew_train
  ∧ well_formed skew_train = true
  ∧ 0 ≤ 1300 < __len__ skew_train
  ∧ __getitem__ skew_train 1300
    = Some (Ok {| image := ("n02", "b_1.JPEG"); class_id := 1 |})
  ∧ ¬ decomposes skew_train 1300 {| image := ("n02", "b_1.JPEG"); class_id := 1 |}
  ∧ ¬ resolves_by_decomposition skew_train.
Proof.
  assert (Hget : __getitem__ skew_train 1300
                 = Some (Ok {| image := ("n02", "b_1.JPEG"); class_id := 1 |}))
    by (vm_compute; reflexivity).
  assert (Hlen : 0 ≤ 1300 < __len__ skew_train)
    by (split; vm_compute; [discriminate | reflexivity]).
  assert (Hno : ¬ decomposes skew_train 1300
                    {| image := ("n02", "b_1.JPEG"); class_id := 1 |})
    by (apply no_decomposition_after_short_folder; vm_compute; reflexivity).
  split; [exact skew_train_init|]. split; [apply skew_train_wf|].
  split; [exact Hlen|]. split; [exact Hget|]. split; [exact Hno|].
  intros Hres. destruct (Hres 1300 Hlen) as (r & Hr & Hdec).
  rewrite Hget in Hr. injection Hr as <-. exact (Hno Hdec).
Qed.

(** C2. On the same well-formed train dataset, index 2 resolves to the folder
    at position 2 and the larger valid index 1300 to the folder at position 1:
    resolution is not monotonic in the folder position. *)
Theorem C2_train_not_monotonic :
  well_formed skew_train = true
  ∧ phase skew_train = Train
  ∧ 0 ≤ 2 < 1300 ∧ 1300 < __len__ skew_train
  ∧ resolved_position skew_train 2 = Some 2%nat
  ∧ resolved_position skew_train 1300 = Some 1%nat
  ∧ ¬ monotonic skew_train.
Proof.
  assert (H2 : resolved_position skew_train 2 = Some 2%nat) by (vm_compute; reflexivity).
  assert (H1300 : resolved_position skew_train 1300 = Some 1%nat)
    by (vm_compute; reflexivity).
  assert (Hlen : 1300 < __len__ skew_train) by (vm_compute; reflexivity).
  split; [apply skew_train_wf|]. split; [apply skew_train_wf|].
  split; [lia|]. split; [exact Hlen|]. split; [exact H2|]. split; [exact H1300|].
  intros Hmono.
  assert (2 ≤ 1)%nat by (apply (Hmono 2 1300); [lia | lia | exact Hlen | exact H2 | exact H1300]).
  lia.
Qed.

(** ** Indices outside [0, length) *)

Lemma getitem_names_raise self g e :
  phase self = Val →
  Py.getitem (_folder_names self) (g `div` 50) = Raise e →
  __getitem__ self g = Some (Raise e).
Proof.
  intros Hph H. unfold __getitem__, _calculate_image_folder_and_name.
  by rewrite Hph, H.
Qed.

Lemma val_above_raises self g :
  phase self = Val → well_formed self = true → __len__ self ≤ g →
  __getitem__ self g = Some (Raise IndexError).
Proof.
  intros Hph Hwf Hg. rewrite (wf_len_val self Hwf Hph) in Hg.
  apply getitem_names_raise; [done|]. apply getitem_ge.
  unfold Py.len in Hg. apply Z.div_le_lower_bound; lia.
Qed.

Lemma val_below_raises self g :
  phase self = Val → well_formed self = true → g < - __len__ self →
  __getitem__ self g = Some (Raise IndexError).
Proof.
  intros Hph Hwf Hg. rewrite (wf_len_val self Hwf Hph) in Hg. unfold Py.len in Hg.
  apply getitem_names_raise; [done|].
  assert (g `div` 50 < - Z.of_nat (length (_folder_names self)))
    by (apply Z.div_lt_upper_bound; lia).
  rewrite getitem_neg by lia.
  by destruct (Z.ltb_spec (g `div` 50 + Z.of_nat (length (_folder_names self))) 0); [|lia].
Qed.

(** A negative index not below [-length] is read from the end. *)
Lemma val_negative_wraps self g :
  phase self = Val → well_formed self = true → - __len__ self ≤ g < 0 →
  __getitem__ self g = __getitem__ self (g + __len__ self).
Proof.
  intros Hph Hwf Hg. rewrite (wf_len_val self Hwf Hph) in *. unfold Py.len in *.
  set (n := Z.of_nat (length (_folder_names self))) in *.
  assert (Hdiv : (g + 50 * n) `div` 50 = g `div` 50 + n).
  { replace (g + 50 * n) with (g + n * 50) by lia. apply Z.div_add. lia. }
  assert (Hmod : (g + 50 * n) `mod` 50 = g `mod` 50).
  { replace (g + 50 * n) with (g + n * 50) by lia. apply Z.mod_add. lia. }
  assert (Hlo : - n ≤ g `div` 50) by (apply Z.div_le_lower_bound; lia).
  assert (Hhi : g `div` 50 < 0) by (apply Z.div_lt_upper_bound; lia).
  unfold __getitem__, _calculate_image_folder_and_name. rewrite Hph, Hdiv, Hmod.
  rewrite (getitem_neg _ (g `div` 50)) by done. fold n.
  by destruct (Z.ltb_spec (g `div` 50 + n) 0); [lia|].
Qed.

Lemma val_index_error_iff self g :
  phase self = Val → well_formed self = true →
  __getitem__ self g = Some (Raise IndexError) ↔ g < - __len__ self ∨ __len__ self ≤ g.
Proof.
  intros Hph Hwf. split.
  - intros Hraise.
    destruct (Z.lt_ge_cases g (- __len__ self)) as [|Hlo]; [by left|].
    destruct (Z.lt_ge_cases g (__len__ self)) as [Hhi|]; [|by right].
    exfalso. destruct (Z.lt_ge_cases g 0) as [Hneg|Hpos].
    + rewrite val_negative_wraps in Hraise by done.
      destruct (val_resolve self (g + __len__ self) Hph Hwf ltac:(lia))
        as (? & ? & ? & _ & _ & _ & _ & Hok).
      congruence.
    + destruct (val_resolve self g Hph Hwf ltac:(lia)) as (? & ? & ? & _ & _ & _ & _ & Hok).
      congruence.
  - intros [Hlo|Hhi]; [by apply val_below_raises | by apply val_above_raises].
Qed.

(** Train phase: the first approximation itself is outside [FolderIndex]. *)
Lemma train_far_raises self g :
  phase self = Train → 1300 * Py.len (_folder_names self) ≤ g →
  __getitem__ self g = Some (Raise IndexError).
Proof.
  intros Hph Hg. unfold __getitem__, _calculate_image_folder_and_name. rewrite Hph.
  assert (Hk : Py.len (_folder_names self) ≤ g `div` 1300)
    by (apply Z.div_le_lower_bound; lia).
  unfold loop_fuel. simpl. unfold folder_len_at.
  by rewrite getitem_ge.
Qed.

(** Train phase: an index not below the length, at which the first
    approximation is exact. *)
Lemma train_exact_above_raises self g :
  phase self = Train → well_formed self = true → __len__ self ≤ g →
  approx_exact self g →
  __getitem__ self g = Some (Raise IndexError).
Proof.
  intros Hph Hwf Hg Hexact.
  pose proof (wf_lens_nonneg self Hwf) as Hpos.
  assert (Hg0 : 0 ≤ g).
  { rewrite (wf_len_train self Hwf Hph) in Hg. pose proof (sumZ_nonneg _ Hpos). lia. }
  assert (Hk0 : 0 ≤ g `div` 1300) by (apply Z.div_pos; lia).
  unfold __getitem__, _calculate_image_folder_and_name. rewrite Hph.
  rewrite train_loop_scan; [| by apply wf_all_present | done | unfold loop_fuel; lia].
  rewrite scan_Raise; [done | by apply Forall_drop |].
  unfold approx_exact, cumulative_length_before in Hexact. rewrite <- Hexact.
  rewrite sumZ_take_drop. by rewrite <- (wf_len_train self Hwf Hph).
Qed.

(** C3, as the code has it. On a dataset that satisfies the invariants of
    the data model a failure is the value [Raise IndexError], never an item
    ([Ok]); and
    - val phase: [resolve] raises [IndexError] exactly when
      [global_idx >= length] or [global_idx < -length] (so [resolve(length)]
      raises); an index in [-length, 0) resolves like [global_idx + length];
      no index in [0, length) raises;
    - train phase: no index in [0, length) raises; every index from
      [1300 * number_of_folders] on raises [IndexError], and so does every
      index from [length] on at which the first approximation is exact, in
      particular [resolve(length)] when the length is below 1300. *)
Theorem C3_index_out_of_range (self : ImageNetDataset) :
  well_formed self = true →
  (phase self = Val →
     ∀ g, (__getitem__ self g = Some (Raise IndexError)
           ↔ g < - __len__ self ∨ __len__ self ≤ g)
          ∧ (- __len__ self ≤ g < 0 →
             __getitem__ self g = __getitem__ self (g + __len__ self))
          ∧ (0 ≤ g < __len__ self → ∃ r, __getitem__ self g = Some (Ok r)))
  ∧ (phase self = Train →
     ∀ g, (0 ≤ g < __len__ self → ∃ r, __getitem__ self g = Some (Ok r))
          ∧ (1300 * Py.len (_folder_names self) ≤ g →
             __getitem__ self g = Some (Raise IndexError))
          ∧ (__len__ self ≤ g → approx_exact self g →
             __getitem__ self g = Some (Raise IndexError))
          ∧ (__len__ self < 1300 →
             __getitem__ self (__len__ self) = Some (Raise IndexError))).
Proof.
  intros Hwf. split; intros Hph g.
  - split; [by apply val_index_error_iff|]. split; [by apply val_negative_wraps|].
    intros Hg. destruct (val_resolve self g Hph Hwf Hg) as (? & ? & ? & _ & _ & _ & _ & Hok).
    eauto.
  - split; [|split; [|split]].
    + intros Hg.
      destruct (train_resolve self g Hph Hwf Hg) as (? & ? & ? & ? & _ & _ & _ & _ & Hok).
      eauto.
    + by apply train_far_raises.
    + by apply train_exact_above_raises.
    + intros Hsmall. apply train_exact_above_raises; [done | done | lia |].
      apply approx_exact_small. split; [|done].
      rewrite (wf_len_train self Hwf Hph). apply sumZ_nonneg. by apply wf_lens_nonneg.
Qed.

Lemma C3_witness :
  (well_formed skew_val = true ∧ phase skew_val = Val
   ∧ __getitem__ skew_val (__len__ skew_val) = Some (Raise IndexError)
   ∧ __getitem__ skew_val (-1) = __getitem__ skew_val (-1 + __len__ skew_val))
  ∧ (well_formed skew_train = true ∧ phase skew_train = Train
     ∧ __getitem__ skew_train 3900 = Some (Raise IndexError)).
Proof.
  assert (Hwv : well_formed skew_val = true) by (vm_compute; reflexivity).
  assert (Hpv : phase skew_val = Val) by (vm_compute; reflexivity).
  assert (Hwt : well_formed skew_train = true) by (vm_compute; reflexivity).
  assert (Hpt : phase skew_train = Train) by (vm_compute; reflexivity).
  split.
  - destruct (C3_index_out_of_range skew_val Hwv) as [Hval _].
    split; [exact Hwv|]. split; [exact Hpv|]. split.
    + destruct (Hval Hpv (__len__ skew_val)) as (Hiff & _ & _).
      apply Hiff. right. apply Z.le_refl.
    + destruct (Hval Hpv (-1)) as (_ & Hwrap & _).
      apply Hwrap. split; vm_compute; [discriminate | reflexivity].
  - destruct (C3_index_out_of_range skew_train Hwt) as [_ Htrain].
    split; [exact Hwt|]. split; [exact Hpt|].
    destruct (Htrain Hpt 3900) as (_ & Hfar & _ & _).
    apply Hfar. vm_compute. discriminate.
Defined.

(** C3, as stated, fails: on a well-formed val dataset of three folders of
    50 items, index -1 is outside [0, length) and [resolve(-1)] returns the
    last item of the last folder. *)
Lemma C3_negative_index_returns_item :
  __init__ skew_root Val = Ok skew_val
  ∧ well_formed skew_val = true
  ∧ __len__ skew_val = 150
  ∧ __getitem__ skew_val (-1)
    = Some (Ok {| image := ("n03", "c_50.JPEG"); class_id := 2 |})
  ∧ __getitem__ skew_val (-1) ≠ Some (Raise IndexError).
Proof.
  assert (Hget : __getitem__ skew_val (-1)
                 = Some (Ok {| image := ("n03", "c_50.JPEG"); class_id := 2 |}))
    by (vm_compute; reflexivity).
  split; [exact skew_val_init|]. split; [apply skew_val_wf|].
  split; [vm_compute; reflexivity|]. split; [exact Hget|].
  rewrite Hget. discriminate.
Qed.

(** ** [sorted] *)

Section Sorted.
Context {A : Type}.
Implicit Types (l : list (Z * A)) (key : A → result Z).

Lemma insert_key_perm k x l : Py.insert_key k x l ≡ₚ (k, x) :: l.
Proof.
  induction l as [|[k' y] l IH]; simpl; [done|].
  destruct (k <=? k'); [done|]. rewrite IH. apply perm_swap.
Qed.

Lemma sort_keyed_perm l : Py.sort_keyed l ≡ₚ l.
Proof.
  induction l as [|[k x] l IH]; simpl; [done|].
  by rewrite insert_key_perm, IH.
Qed.

Lemma insert_key_sorted k x l :
  StronglySorted Z.le l.*1 → StronglySorted Z.le (Py.insert_key k x l).*1.
Proof.
  induction l as [|[k' y] l IH]; simpl; intros Hs.
  - repeat constructor.
  - inversion Hs as [|? ? Hs' Hall]; subst.
    destruct (Z.leb_spec k k') as [Hle|Hgt]; simpl.
    + constructor; [done|]. constructor; [done|].
      eapply Forall_impl; [exact Hall|]. simpl. intros; lia.
    + constructor; [by apply IH|].
      rewrite (fmap_Permutation fst _ _ (insert_key_perm k x l)). simpl.
      constructor; [lia | done].
Qed.

Lemma sort_keyed_sorted l : StronglySorted Z.le (Py.sort_keyed l).*1.
Proof.
  induction l as [|[k x] l IH]; simpl; [constructor|].
  by apply insert_key_sorted.
Qed.

Lemma mapM_Ok_Forall2 {B : Type} (f : A → result B) (xs : list A) (ys : list B) :
  mapM f xs = Ok ys ↔ Forall2 (λ x y, f x = Ok y) xs ys.
Proof.
  revert ys. induction xs as [|x xs IH]; intros ys; simpl.
  - split; [intros [= <-]; constructor | by inversion 1].
  - destruct (f x) as [y|e] eqn:Hx; simpl.
    + destruct (mapM f xs) as [ys'|e] eqn:Hxs; simpl.
      * split.
        -- intros [= <-]. constructor; [done | by apply IH].
        -- inversion 1 as [|? y' ? ys'' Hy Hys]; subst.
           apply IH in Hys. congruence.
      * split; [done|]. inversion 1 as [|? y' ? ys'' Hy Hys]; subst.
        by apply IH in Hys.
    + split; [done|]. inversion 1; congruence.
Qed.

Lemma mapM_raises {B : Type} (f : A → result B) (xs : list A) x :
  x ∈ xs → raises (f x) → raises (mapM f xs).
Proof.
  intros Hin [e He]. induction Hin as [x xs|x y xs Hin IH]; simpl.
  - rewrite He. by exists e.
  - destruct (f y) as [b|e']; simpl; [|by exists e'].
    destruct (IH He) as [e2 He2]. rewrite He2. by exists e2.
Qed.

Lemma mapM_is_ok {B : Type} (f : A → result B) (xs : list A) :
  is_ok (mapM f xs) = forallb (λ x, is_ok (f x)) xs.
Proof.
  induction xs as [|x xs IH]; simpl; [done|].
  destruct (f x); simpl; [|done]. rewrite <- IH. by destruct (mapM f xs).
Qed.

(** What [sorted] returns: a rearrangement of the list in which the keys
    are in ascending order. *)
Lemma sorted_spec key (xs ys : list A) :
  Py.sorted key xs = Ok ys →
  ys ≡ₚ xs ∧ ∃ ks, mapM key ys = Ok ks ∧ StronglySorted Z.le ks.
Proof.
  unfold Py.sorted. destruct (mapM key xs) as [ks|] eqn:Hks; simpl; [|done].
  intros [= <-]. apply mapM_Ok_Forall2 in Hks.
  pose proof (Forall2_length _ _ _ Hks) as Hlen.
  split.
  - rewrite (fmap_Permutation snd _ _ (sort_keyed_perm (zip ks xs))).
    by rewrite snd_zip by lia.
  - exists (Py.sort_keyed (zip ks xs)).*1. split; [|apply sort_keyed_sorted].
    apply mapM_Ok_Forall2. apply Forall2_fmap, Forall_Forall2_diag.
    rewrite (sort_keyed_perm (zip ks xs)).
    apply Forall_forall. intros [k x] Hin. simpl.
    apply list_elem_of_lookup in Hin as [i Hi].
    apply lookup_zip_with_Some in Hi as (k' & x' & [= <- <-] & Hk & Hx).
    by eapply Forall2_lookup_lr in Hks.
Qed.

Lemma sorted_raises key (xs : list A) x :
  x ∈ xs → raises (key x) → raises (Py.sorted key xs).
Proof.
  intros Hin Hx. destruct (mapM_raises key xs x Hin Hx) as [e He].
  exists e. unfold Py.sorted. by rewrite He.
Qed.
End Sorted.

(** ** The annotation loader *)

Lemma load_line_entry root phase acc line :
  load_line root phase acc line
  = (e ← line_entry root phase line; Ok (add_entry acc e)).
Proof.
  unfold load_line, line_entry.
  destruct (Py.split_ws (Py.strip line)) as [|f [|i [|l [|? ?]]]]; try done.
  destruct (listdir_folder root phase f) as [list_dir|]; simpl; [|done].
  destruct (Py.int i) as [id|]; simpl; [|done].
  by destruct (Py.sorted image_key list_dir).
Qed.

Lemma load_lines_entries root phase acc lines :
  load_lines root phase acc lines
  = (es ← mapM (line_entry root phase) lines; Ok (foldl add_entry acc es)).
Proof.
  revert acc. induction lines as [|line lines IH]; intros acc; simpl; [done|].
  rewrite load_line_entry.
  destruct (line_entry root phase line) as [e|]; simpl; [|done].
  rewrite IH. by destruct (mapM (line_entry root phase) lines).
Qed.

Lemma foldl_insert_lookup {V : Type} (l : list (string * V)) (m : gmap string V) k :
  foldl (λ m kv, <[kv.1 := kv.2]> m) m l !! k
  = match last_binding k l with Some v => Some v | None => m !! k end.
Proof.
  revert m. induction l as [|[k' v] l IH]; intros m; simpl; [done|].
  rewrite IH. destruct (last_binding k l); [done|].
  destruct (String.eqb_spec k' k) as [->|Hne].
  - by rewrite lookup_insert_eq.
  - by rewrite lookup_insert_ne.
Qed.

Lemma foldl_add_entry acc es :
  foldl add_entry acc es
  = (foldl (λ m kv, <[kv.1 := kv.2]> m) (acc.1) ((λ e, (e_id e, e_label e)) <$> es),
     foldl (λ m kv, <[kv.1 := kv.2]> m) (acc.2) ((λ e, (e_folder e, e_stats e)) <$> es)).
Proof.
  revert acc. induction es as [|e es IH]; intros [c s]; simpl; [done|].
  by rewrite IH.
Qed.

Lemma last_binding_Some {V : Type} (l : list (string * V)) k v :
  last_binding k l = Some v → (k, v) ∈ l.
Proof.
  induction l as [|[k' v'] l IH]; simpl; [done|].
  destruct (last_binding k l) as [v2|].
  - intros [= <-]. right. by apply IH.
  - destruct (String.eqb_spec k' k) as [->|]; [|done]. intros [= <-]. left.
Qed.

Lemma last_binding_None {V : Type} (l : list (string * V)) k :
  last_binding k l = None ↔ k ∉ l.*1.
Proof.
  induction l as [|[k' v'] l IH]; simpl.
  - split; [intros _; by apply not_elem_of_nil | done].
  - rewrite not_elem_of_cons. destruct (last_binding k l) as [v2|].
    + split; [done|]. intros [_ Hn]. by apply IH in Hn.
    + destruct (String.eqb_spec k' k) as [->|Hne].
      * split; [done | by intros [? _]].
      * split; [intros _; split; [congruence | by apply IH] | done].
  Qed.

Lemma line_entry_Ok root phase line e :
  line_entry root phase line = Ok e →
  Py.split_ws (Py.strip line) = [e_folder e; e_id e; e_label e]
  ∧ ∃ list_dir,
      listdir_folder root phase (e_folder e) = Ok list_dir
      ∧ Py.int (e_id e) = Ok (Stats.id (e_stats e))
      ∧ Stats.len (e_stats e) = Py.len list_dir
      ∧ Py.sorted image_key list_dir = Ok (Stats.images (e_stats e)).
Proof.
  unfold line_entry.
  destruct (Py.split_ws (Py.strip line)) as [|f [|i [|l [|? ?]]]]; try done.
  destruct (listdir_folder root phase f) as [list_dir|] eqn:Hdir; simpl; [|done].
  destruct (Py.int i) as [id|] eqn:Hid; simpl; [|done].
  destruct (Py.sorted image_key list_dir) as [imgs|] eqn:Himgs; simpl; [|done].
  intros [= <-]. simpl. split; [done|]. by exists list_dir.
Qed.

(** [_load_annotations] in one piece: the sorted listing, then the entries of
    the lines folded into the two dicts. *)
Lemma load_annotations_entries root phase :
  _load_annotations root phase
  = (folder_names ← Py.sorted folder_key (listdir_phase root phase);
     es ← mapM (line_entry root phase) (labels_txt root);
     Ok ((foldl add_entry (∅, ∅) es).1, (foldl add_entry (∅, ∅) es).2, folder_names)).
Proof.
  unfold _load_annotations. rewrite load_lines_entries.
  destruct (Py.sorted folder_key _); simpl; [|done].
  by destruct (mapM (line_entry root phase) (labels_txt root)).
Qed.

Lemma load_annotations_Ok root phase c s names :
  _load_annotations root phase = Ok (c, s, names) →
  Py.sorted folder_key (listdir_phase root phase) = Ok names
  ∧ ∃ es, mapM (line_entry root phase) (labels_txt root) = Ok es
          ∧ (∀ k, c !! k = last_binding k ((λ e, (e_id e, e_label e)) <$> es))
          ∧ (∀ k, s !! k = last_binding k ((λ e, (e_folder e, e_stats e)) <$> es)).
Proof.
  rewrite load_annotations_entries.
  destruct (Py.sorted folder_key _) as [names'|]; simpl; [|done].
  destruct (mapM (line_entry root phase) (labels_txt root)) as [es|]; simpl; [|done].
  rewrite foldl_add_entry. simpl. intros [= <- <- <-]. split; [done|].
  exists es. split; [done|].
  split; intros k; rewrite foldl_insert_lookup, lookup_empty;
    by destruct (last_binding k _).
Qed.

Lemma init_Ok root ph self :
  __init__ root ph = Ok self →
  ph = phase self
  ∧ _load_annotations root ph
    = Ok (classid_to_label self, _folder_stats self, _folder_names self)
  ∧ _get_len ph (_folder_stats self) (_folder_names self) = Ok (__len__ self).
Proof.
  unfold __init__.
  destruct (_load_annotations root ph) as [[[c s] names]|]; simpl; [|done].
  destruct (_get_len ph s names) as [n|] eqn:Hlen; simpl; [|done].
  intros [= <-]. by repeat split.
Qed.

(** C9. Train phase, empty annotation file: construction raises. When the
    listing of [root_dir/train] sorts, [_load_annotations] returns an empty
    [folder_stats] and the exception comes from [_get_len]: [TypeError] from
    [reduce] on an empty list of folders, [KeyError] for the first folder
    otherwise. *)
Theorem C9_empty_feed_train_fails (root : root_dir) :
  labels_txt root = [] →
  raises (__init__ root Train)
  ∧ (∀ c s names,
       _load_annotations root Train = Ok (c, s, names) →
       s = ∅
       ∧ _get_len Train s names
         = Raise (match names with [] => TypeError | _ => KeyError end)).
Proof.
  intros Hfeed.
  assert (Hload : ∀ c s names,
             _load_annotations root Train = Ok (c, s, names) →
             s = ∅ ∧ _get_len Train s names
                     = Raise (match names with [] => TypeError | _ => KeyError end)).
  { intros c s names. unfold _load_annotations. rewrite Hfeed.
    destruct (Py.sorted folder_key _) as [names'|]; simpl; [|done].
    intros [= <- <- <-]. split; [done|].
    destruct names' as [|name names']; simpl; [done|].
    by rewrite dict_get_None by apply lookup_empty. }
  split; [|exact Hload].
  unfold __init__.
  destruct (_load_annotations root Train) as [[[c s] names]|e] eqn:Hl; simpl.
  - destruct (Hload c s names eq_refl) as [_ Hlen].
    unfold _get_len in Hlen. rewrite Hlen. by eexists.
  - by exists e.
Qed.

Lemma C9_witness :
  raises (__init__ empty_feed_root Train)
  ∧ (∀ c s names,
       _load_annotations empty_feed_root Train = Ok (c, s, names) →
       s = ∅
       ∧ _get_len Train s names
         = Raise (match names with [] => TypeError | _ => KeyError end)).
Proof. apply (C9_empty_feed_train_fails empty_feed_root). reflexivity. Defined.

(** ** Repeated keys in the annotation file *)

Lemma mapM_app {A B : Type} (f : A → result B) (l1 l2 : list A) :
  mapM f (l1 ++ l2) = (a ← mapM f l1; b ← mapM f l2; Ok (a ++ b)%list).
Proof.
  induction l1 as [|x l1 IH]; simpl.
  - by destruct (mapM f l2).
  - destruct (f x); simpl; [|done]. rewrite IH.
    destruct (mapM f l1); simpl; [|done]. by destruct (mapM f l2).
Qed.

Lemma load_annotations_is_ok root phase :
  is_ok (_load_annotations root phase)
  = is_ok (Py.sorted folder_key (listdir_phase root phase))
    && forallb (λ line, is_ok (line_entry root phase line)) (labels_txt root).
Proof.
  rewrite load_annotations_entries, <- mapM_is_ok.
  destruct (Py.sorted folder_key _); simpl; [|done].
  by destruct (mapM (line_entry root phase) (labels_txt root)).
Qed.

Lemma get_len_insert phase (s : gmap string Stats.t) names f st :
  is_ok (_get_len phase s names) = true →
  is_ok (_get_len phase (<[f := st]> s) names) = true.
Proof.
  destruct phase; [|done]. intros Hok.
  destruct (_get_len Train s names) as [n|] eqn:Hlen; [|done].
  destruct (get_len_train_present _ _ _ Hlen) as [Hne Hall].
  unfold _get_len. rewrite mapM_lens.
  - destruct names; [done|]. done.
  - eapply Forall_impl; [exact Hall|]. simpl. intros name Hname.
    rewrite lookup_insert. by case_decide.
Qed.

Lemma init_append_line root phase self line :
  __init__ root phase = Ok self →
  is_ok (line_entry root phase line) = true →
  is_ok (__init__ (append_line root line) phase) = true.
Proof.
  intros Hinit Hline. apply init_Ok in Hinit as (_ & Hload & Hlen).
  rewrite load_annotations_entries in Hload.
  unfold __init__. rewrite load_annotations_entries.
  change (listdir_phase (append_line root line) phase) with (listdir_phase root phase).
  change (line_entry (append_line root line) phase) with (line_entry root phase).
  destruct (Py.sorted folder_key _) as [names|]; simpl in *; [|done].
  rewrite mapM_app.
  destruct (mapM (line_entry root phase) (labels_txt root)) as [es|]; simpl in *; [|done].
  destruct (line_entry root phase line) as [e|]; simpl in *; [|done].
  injection Hload as _ Hs Hnames. rewrite <- Hs, <- Hnames in Hlen.
  rewrite foldl_app. simpl.
  pose proof (get_len_insert phase (foldl add_entry (∅, ∅) es).2 names
                (e_folder e) (e_stats e)) as Hins.
  rewrite Hlen in Hins. specialize (Hins eq_refl). revert Hins.
  by destruct (_get_len phase (<[_ := _]> _) names).
Qed.

(** C10. Whether [_load_annotations] returns is decided line by line (and
    by the sort of the folder listing): a line that repeats a class id or a
    folder id is accepted like any other. In the dicts returned every key is
    bound by the last line that carries it; and a construction that succeeds
    still succeeds after a further acceptable line, repeated keys or not. *)
Theorem C10_repeated_keys_last_wins (root : root_dir) (phase : Phase) :
  is_ok (_load_annotations root phase)
  = is_ok (Py.sorted folder_key (listdir_phase root phase))
    && forallb (λ line, is_ok (line_entry root phase line)) (labels_txt root)
  ∧ (∀ c s names,
       _load_annotations root phase = Ok (c, s, names) →
       ∃ es, mapM (line_entry root phase) (labels_txt root) = Ok es
             ∧ (∀ k, c !! k = last_binding k ((λ e, (e_id e, e_label e)) <$> es))
             ∧ (∀ k, s !! k = last_binding k ((λ e, (e_folder e, e_stats e)) <$> es)))
  ∧ (∀ self line,
       __init__ root phase = Ok self →
       is_ok (line_entry root phase line) = true →
       is_ok (__init__ (append_line root line) phase) = true).
Proof.
  split; [apply load_annotations_is_ok|]. split.
  - intros c s names Hload.
    destruct (load_annotations_Ok _ _ _ _ _ Hload) as (_ & es & Hes & Hc & Hs). eauto.
  - intros self line. apply init_append_line.
Qed.

Lemma C10_witness :
  ∃ self,
    __init__ dup_root Train = Ok self
    ∧ classid_to_label self !! "0" = Some "goldfish"
    ∧ Stats.id <$> _folder_stats self !! "n01" = Some 1
    ∧ is_ok (__init__ (append_line dup_root "n02 1 pike") Train) = true.
Proof.
  destruct (C10_repeated_keys_last_wins dup_root Train) as (_ & Hlast & Happ).
  exists (dataset_of dup_root Train).
  assert (Hinit : __init__ dup_root Train = Ok (dataset_of dup_root Train))
    by (apply dataset_of_init; vm_compute; reflexivity).
  split; [exact Hinit|].
  destruct (Hlast (classid_to_label (dataset_of dup_root Train))
              (_folder_stats (dataset_of dup_root Train))
              (_folder_names (dataset_of dup_root Train)))
    as (es & Hes & Hc & Hs).
  { vm_compute. reflexivity. }
  assert (Hes' : mapM (line_entry dup_root Train) (labels_txt dup_root)
                 = Ok [ {| e_folder := "n01"; e_id := "0"; e_label := "tench";
                           e_stats := {| Stats.id := 0; Stats.len := 2;
                                         Stats.images := ["a_9.JPEG"; "a_10.JPEG"] |} |};
                        {| e_folder := "n02"; e_id := "0"; e_label := "goldfish";
                           e_stats := {| Stats.id := 0; Stats.len := 1;
                                         Stats.images := ["b_1.JPEG"] |} |};
                        {| e_folder := "n01"; e_id := "1"; e_label := "shark";
                           e_stats := {| Stats.id := 1; Stats.len := 2;
                                         Stats.images := ["a_9.JPEG"; "a_10.JPEG"] |} |} ])
    by (vm_compute; reflexivity).
  rewrite Hes' in Hes. injection Hes as <-.
  split; [by rewrite Hc|]. split; [by rewrite Hs|].
  apply (Happ (dataset_of dup_root Train) "n02 1 pike" Hinit).
  vm_compute. reflexivity.
Defined.

(** ** Folders and annotation lines that do not match *)



Lemma raises_bind {A B : Type} (r : result A) (k : A → result B) :
  raises r → raises (r ≫= k).
Proof. intros [e ->]. by exists e. Qed.


Lemma init_raises_of_line root phase line :
  line ∈ labels_txt root → raises (line_entry root phase line) →
  raises (__init__ root phase).
Proof.
  intros Hin Hline. unfold __init__. apply raises_bind.
  rewrite load_annotations_entries.
  destruct (Py.sorted folder_key _) as [names|e]; simpl; [|by exists e].
  apply raises_bind. by eapply mapM_raises.
Qed.

(** The folders that have statistics are the first tokens of the lines. *)
Lemma stats_key_line root phase c s names f st :
  _load_annotations root phase = Ok (c, s, names) →
  s !! f = Some st →
  ∃ line e, line ∈ labels_txt root
            ∧ line_entry root phase line = Ok e
            ∧ e_folder e = f ∧ e_stats e = st.
Proof.
  intros Hload Hst.
  destruct (load_annotations_Ok _ _ _ _ _ Hload) as (_ & es & Hes & _ & Hs).
  rewrite Hs in Hst. apply last_binding_Some in Hst.
  apply list_elem_of_fmap in Hst as (e & [= -> ->] & He).
  apply mapM_Ok_Forall2 in Hes.
  apply list_elem_of_lookup in He as [i Hi].
  destruct (Forall2_lookup_r _ _ _ _ _ Hes Hi) as (line & Hline & Hentry).
  exists line, e. split; [|done]. apply list_elem_of_lookup. eauto.
Qed.





(** ** The length *)





(** ** The key of an image name *)

Lemma is_sep_replace c :
  is_sep c = true → (if Ascii.eqb c "." then "_"%char else c) = "_"%char.
Proof.
  unfold is_sep. destruct (Ascii.eqb_spec c "."); [done|].
  destruct (Ascii.eqb_spec c "_"); [done|]. done.
Qed.

Lemma not_sep_replace c :
  is_sep c = false →
  (if Ascii.eqb c "." then "_"%char else c) = c
  ∧ Ascii.eqb c "_" = false.
Proof.
  unfold is_sep. destruct (Ascii.eqb c "."); [done|].
  by destruct (Ascii.eqb c "_").
Qed.

Lemma append_nil_r (s : string) : s +:+ "" = s.
Proof.
  induction s as [|c s IH]; [done|].
  change (String c s +:+ "") with (String c (s +:+ "")). by rewrite IH.
Qed.

Lemma split_replace_no_sep a :
  no_sep a = true → Py.split_on "_" (Py.replace "." "_" a) = [a].
Proof.
  induction a as [|c a IH]; simpl; [done|].
  intros [Hc Ha]%andb_prop. apply negb_true_iff in Hc.
  destruct (not_sep_replace c Hc) as [-> ->]. by rewrite (IH Ha).
Qed.

Lemma split_replace_sep a c r :
  no_sep a = true → is_sep c = true →
  Py.split_on "_" (Py.replace "." "_" (a +:+ String c r))
  = a :: Py.split_on "_" (Py.replace "." "_" r).
Proof.
  intros Ha Hc. induction a as [|c' a IH]; simpl.
  - by rewrite (is_sep_replace c Hc).
  - simpl in Ha. apply andb_prop in Ha as [Hc' Ha]. apply negb_true_iff in Hc'.
    destruct (not_sep_replace c' Hc') as [-> ->]. by rewrite (IH Ha).
Qed.

(** The key is the integer written between the first separator and the
    second one (or the end of the name). *)
Lemma image_key_between_separators a c b rest :
  no_sep a = true → is_sep c = true → no_sep b = true →
  (rest = "" ∨ ∃ c' r, rest = String c' r ∧ is_sep c' = true) →
  image_key (a +:+ String c (b +:+ rest)) = Py.int b.
Proof.
  intros Ha Hc Hb Hrest. unfold image_key.
  rewrite split_replace_sep by done.
  destruct Hrest as [->|(c' & r & -> & Hc')].
  - rewrite append_nil_r, split_replace_no_sep by done.
    by rewrite getitem_nonneg by lia.
  - rewrite split_replace_sep by done.
    by rewrite getitem_nonneg by lia.
Qed.

(** A name without separator has no key. *)
Lemma image_key_no_separator a : no_sep a = true → image_key a = Raise IndexError.
Proof.
  intros Ha. unfold image_key. rewrite split_replace_no_sep by done.
  by rewrite getitem_nonneg by lia.
Qed.

(** C7. Every entry of [FolderStats] of a constructed dataset holds the
    listing of its folder rearranged so that the integer keys of the names
    ([image_key]: the integer between the first two separators) ascend; this
    is what [sorted] returns for the listing. Construction raises when the
    listing of a folder named by a line has a name without such a key. The
    order is numeric: [a_10.JPEG] precedes [a_9.JPEG] as a string and
    follows it in [images]. *)
Theorem C7_images_sorted_by_number (root : root_dir) (phase : Phase) :
  (∀ self f st,
     __init__ root phase = Ok self →
     _folder_stats self !! f = Some st →
     ∃ list_dir ks,
       listdir_folder root phase f = Ok list_dir
       ∧ Py.sorted image_key list_dir = Ok (Stats.images st)
       ∧ Stats.images st ≡ₚ list_dir
       ∧ mapM image_key (Stats.images st) = Ok ks
       ∧ StronglySorted Z.le ks)
  ∧ (∀ line f i l list_dir name,
       line ∈ labels_txt root →
       Py.split_ws (Py.strip line) = [f; i; l] →
       listdir_folder root phase f = Ok list_dir →
       name ∈ list_dir →
       raises (image_key name) →
       raises (__init__ root phase))
  ∧ (String.ltb "a_10.JPEG" "a_9.JPEG" = true
     ∧ Py.sorted image_key ["a_10.JPEG"; "a_9.JPEG"] = Ok ["a_9.JPEG"; "a_10.JPEG"]
     ∧ image_key "n01440764_10026.JPEG" = Ok 10026).
Proof.
  split; [|split].
  - intros self f st Hinit Hst. apply init_Ok in Hinit as (_ & Hload & _).
    destruct (stats_key_line _ _ _ _ _ _ _ Hload Hst) as (line & e & _ & He & <- & <-).
    apply line_entry_Ok in He as (_ & list_dir & Hdir & _ & _ & Hsorted).
    destruct (sorted_spec _ _ _ Hsorted) as (Hperm & ks & Hks & Hss).
    by exists list_dir, ks.
  - intros line f i l list_dir name Hline Htok Hdir Hname Hkey.
    apply (init_raises_of_line root phase line Hline).
    unfold line_entry. rewrite Htok, Hdir. simpl.
    destruct (Py.int i) as [id|e]; simpl; [|by exists e].
    apply raises_bind. by eapply sorted_raises.
  - repeat split; vm_compute; reflexivity.
Qed.

Lemma C7_witness :
  (∃ self st,
     __init__ dup_root Train = Ok self
     ∧ _folder_stats self !! "n01" = Some st
     ∧ listdir_folder dup_root Train "n01" = Ok ["a_10.JPEG"; "a_9.JPEG"]
     ∧ Stats.images st = ["a_9.JPEG"; "a_10.JPEG"]
     ∧ ∃ ks, mapM image_key (Stats.images st) = Ok ks ∧ StronglySorted Z.le ks)
  ∧ raises (__init__ no_number_root Train).
Proof.
  split.
  - destruct (C7_images_sorted_by_number dup_root Train) as (Hsorted & _ & _).
    assert (Hinit : __init__ dup_root Train = Ok (dataset_of dup_root Train))
      by (apply dataset_of_init; vm_compute; reflexivity).
    assert (Hst : _folder_stats (dataset_of dup_root Train) !! "n01"
                  = Some {| Stats.id := 1; Stats.len := 2;
                            Stats.images := ["a_9.JPEG"; "a_10.JPEG"] |})
      by (vm_compute; reflexivity).
    destruct (Hsorted _ _ _ Hinit Hst) as (list_dir & ks & Hdir & _ & _ & Hks & Hss).
    eexists _, _. split; [exact Hinit|]. split; [exact Hst|].
    split; [reflexivity|]. split; [reflexivity|]. by exists ks.
  - destruct (C7_images_sorted_by_number no_number_root Train) as (_ & Hfail & _).
    apply (Hfail "n01 0 tench" "n01" "0" "tench" ["a_1.JPEG"; "README"] "README").
    + apply list_elem_of_here.
    + reflexivity.
    + reflexivity.
    + apply list_elem_of_further, list_elem_of_here.
    + exists IndexError. reflexivity.
Defined.

(** ** Further properties of the annotation loader *)

Lemma int_raises_ValueError s e : Py.int s = Raise e → e = ValueError.
Proof.
  unfold Py.int. intros H.
  destruct (match Py.int_strip s with
            | String "+" r => Py.int_unsigned r
            | String "-" r => Z.opp <$> Py.int_unsigned r
            | _ => Py.int_unsigned (Py.int_strip s)
            end); [done | congruence].
Qed.

Lemma mapM_raise_only {A B : Type} (f : A → result B) (xs : list A) x e0 :
  (∀ y e, f y = Raise e → e = e0) → x ∈ xs → raises (f x) → mapM f xs = Raise e0.
Proof.
  intros Honly Hin Hx. destruct (mapM_raises f xs x Hin Hx) as [e He].
  rewrite He. f_equal. clear Hin Hx. revert He.
  induction xs as [|y xs IH]; simpl; [done|].
  destruct (f y) as [b|e1] eqn:Hy; simpl.
  - destruct (mapM f xs) as [ys|e2]; simpl; [done|]. intros [= <-]. by apply IH.
  - intros [= <-]. by eapply Honly.
Qed.

(** X1. [FolderIndex] of a constructed dataset is the listing of
    [root_dir/phase] rearranged so that the integers after the first
    character of the names ascend. *)
Theorem X1_folder_index_sorted (root : root_dir) (ph : Phase) (self : ImageNetDataset) :
  __init__ root ph = Ok self →
  _folder_names self ≡ₚ listdir_phase root ph
  ∧ ∃ ks, mapM folder_key (_folder_names self) = Ok ks ∧ StronglySorted Z.le ks.
Proof.
  intros Hinit. apply init_Ok in Hinit as (_ & Hload & _).
  destruct (load_annotations_Ok _ _ _ _ _ Hload) as (Hsorted & _).
  by apply sorted_spec in Hsorted.
Qed.

Lemma X1_witness :
  _folder_names skew_train ≡ₚ listdir_phase skew_root Train
  ∧ ∃ ks, mapM folder_key (_folder_names skew_train) = Ok ks ∧ StronglySorted Z.le ks.
Proof. apply (X1_folder_index_sorted skew_root Train skew_train). exact skew_train_init. Defined.

(** X2. An entry of [root_dir/phase] whose name has no integer after its
    first character makes construction raise [ValueError], whether or not a
    line of the annotation file names it. *)
Theorem X2_malformed_folder_name (root : root_dir) (ph : Phase) (name : string) :
  name ∈ listdir_phase root ph → raises (folder_key name) →
  __init__ root ph = Raise ValueError.
Proof.
  intros Hin Hkey. unfold __init__, _load_annotations, Py.sorted.
  rewrite (mapM_raise_only folder_key _ name ValueError); [done | | done | done].
  intros y e. apply int_raises_ValueError.
Qed.

Lemma X2_witness : __init__ readme_root Train = Raise ValueError.
Proof.
  apply (X2_malformed_folder_name readme_root Train "README").
  - apply list_elem_of_further, list_elem_of_here.
  - exists ValueError. reflexivity.
Defined.

(** X3. Every entry of [FolderStats] of a constructed dataset comes from a
    line of three tokens of the annotation file that names its folder: [len]
    is the number of entries of the folder listing and the number of
    [images], and [id] is the integer of the second token. *)
Theorem X3_stats_entry (root : root_dir) (ph : Phase) (self : ImageNetDataset)
    (f : string) (st : Stats.t) :
  __init__ root ph = Ok self →
  _folder_stats self !! f = Some st →
  ∃ line i l list_dir,
    line ∈ labels_txt root
    ∧ Py.split_ws (Py.strip line) = [f; i; l]
    ∧ listdir_folder root ph f = Ok list_dir
    ∧ Stats.len st = Py.len list_dir
    ∧ Stats.len st = Py.len (Stats.images st)
    ∧ Py.int i = Ok (Stats.id st).
Proof.
  intros Hinit Hst. apply init_Ok in Hinit as (_ & Hload & _).
  destruct (stats_key_line _ _ _ _ _ _ _ Hload Hst) as (line & e & Hline & He & <- & <-).
  apply line_entry_Ok in He as (Htok & list_dir & Hdir & Hid & Hlen & Hsorted).
  apply sorted_spec in Hsorted as [Hperm _].
  exists line, (e_id e), (e_label e), list_dir. repeat split; try done.
  rewrite Hlen. unfold Py.len. by rewrite Hperm.
Qed.

Lemma X3_witness :
  ∃ line i l list_dir,
    line ∈ labels_txt skew_root
    ∧ Py.split_ws (Py.strip line) = ["n01"; i; l]
    ∧ listdir_folder skew_root Train "n01" = Ok list_dir
    ∧ 1 = Py.len list_dir
    ∧ 1 = Py.len ["a_1.JPEG"]
    ∧ Py.int i = Ok 0.
Proof.
  apply (X3_stats_entry skew_root Train skew_train "n01"
           {| Stats.id := 0; Stats.len := 1; Stats.images := ["a_1.JPEG"] |}
           skew_train_init).
  vm_compute. reflexivity.
Defined.

Lemma last_binding_is_Some {V : Type} (l : list (string * V)) k :
  is_Some (last_binding k l) ↔ k ∈ l.*1.
Proof.
  pose proof (last_binding_None l k) as Hnone.
  destruct (last_binding k l) as [v|].
  - split; [|by eauto]. intros _.
    destruct (decide (k ∈ l.*1)) as [|Hn]; [done|]. by apply Hnone in Hn.
  - split; [by intros [? ?]|]. intros Hin. by destruct (proj1 Hnone eq_refl).
Qed.




(** X5. A line of the annotation file that cannot be processed makes
    construction raise, in both phases: a line that does not split into
    exactly three tokens (a blank line among them), a line whose folder is a
    plain file, and a line whose second token is not an integer. *)
Theorem X5_unprocessable_line (root : root_dir) (ph : Phase) (line : string) :
  line ∈ labels_txt root →
  (length (Py.split_ws (Py.strip line)) ≠ 3%nat → raises (__init__ root ph))
  ∧ (∀ f i l, Py.split_ws (Py.strip line) = [f; i; l] →
              find_entry f (phase_entries root ph) = Some File →
              raises (__init__ root ph))
  ∧ (∀ f i l, Py.split_ws (Py.strip line) = [f; i; l] →
              raises (Py.int i) →
              raises (__init__ root ph)).
Proof.
  intros Hline. split; [|split].
  - intros Hlen. apply (init_raises_of_line root ph line Hline).
    unfold line_entry.
    destruct (Py.split_ws (Py.strip line)) as [|f [|i [|l [|? ?]]]];
      by exists ValueError.
  - intros f i l Htok Hfile. apply (init_raises_of_line root ph line Hline).
    unfold line_entry, listdir_folder. rewrite Htok, Hfile.
    by exists NotADirectoryError.
  - intros f i l Htok [e He]. apply (init_raises_of_line root ph line Hline).
    unfold line_entry. rewrite Htok, He.
    destruct (listdir_folder root ph f) as [list_dir|e']; [by exists e | by exists e'].
Qed.

Lemma X5_witness :
  raises (__init__ blank_line_root Train)
  ∧ raises (__init__ readme_root Val)
  ∧ raises (__init__ blank_line_root Val).
Proof.
  split; [|split].
  - destruct (X5_unprocessable_line blank_line_root Train "") as (Hblank & _ & _).
    + apply list_elem_of_further, list_elem_of_here.
    + apply Hblank. vm_compute. discriminate.
  - destruct (X5_unprocessable_line readme_root Val "n01 0 tench") as (_ & Hfile & _).
    + apply list_elem_of_here.
    + apply (Hfile "n01" "0" "tench"); reflexivity.
  - destruct (X5_unprocessable_line blank_line_root Val "n01 zero tench") as (_ & _ & Hint).
    + do 2 apply list_elem_of_further. apply list_elem_of_here.
    + apply (Hint "n01" "zero" "tench"); [reflexivity|]. exists ValueError. reflexivity.
Defined.


Lemma get_len_train_Ok (stats : gmap string Stats.t) (names : list string) :
  names ≠ [] → Forall (λ name, is_Some (stats !! name)) names →
  is_ok (_get_len Train stats names) = true.
Proof.
  intros Hne Hall. unfold _get_len. rewrite mapM_lens by done.
  by destruct names.
Qed.

(** X6. Construction in the val phase succeeds exactly when
    [_load_annotations] does. In the train phase it succeeds exactly when
    [_load_annotations] does, [root_dir/train] is not empty, and every entry
    of [root_dir/train] is the first token of a line of the annotation
    file. *)
Theorem X6_construction_succeeds_iff (root : root_dir) :
  is_ok (__init__ root Val) = is_ok (_load_annotations root Val)
  ∧ (is_ok (__init__ root Train) = true
     ↔ is_ok (_load_annotations root Train) = true
       ∧ listdir_phase root Train ≠ []
       ∧ ∀ f, f ∈ listdir_phase root Train →
              ∃ line, line ∈ labels_txt root
                      ∧ head (Py.split_ws (Py.strip line)) = Some f).
Proof.
  split.
  - unfold __init__. by destruct (_load_annotations root Val) as [[[c s] names]|].
  - split.
    + intros Hok. destruct (__init__ root Train) as [self|] eqn:Hinit; [|done].
      apply init_Ok in Hinit as (_ & Hload & Hlen).
      destruct (get_len_train_present _ _ _ Hlen) as [Hne Hall].
      destruct (load_annotations_Ok _ _ _ _ _ Hload) as (Hsorted & _).
      apply sorted_spec in Hsorted as [Hperm _].
      split; [by rewrite Hload|]. split.
      * intros Hnil. rewrite Hnil in Hperm. by apply Permutation_nil_r in Hperm.
      * intros f Hf. rewrite <- Hperm in Hf.
        rewrite Forall_forall in Hall. destruct (Hall f Hf) as [st Hst].
        destruct (stats_key_line _ _ _ _ _ _ _ Hload Hst)
          as (line & e & Hline & He & <- & _).
        apply line_entry_Ok in He as [Htok _]. exists line. by rewrite Htok.
    + intros (Hload & Hne & Hall).
      destruct (_load_annotations root Train) as [[[c s] names]|] eqn:Hl; [|done].
      unfold __init__. rewrite Hl. simpl.
      destruct (load_annotations_Ok _ _ _ _ _ Hl) as (Hsorted & es & Hes & _ & Hs).
      apply sorted_spec in Hsorted as [Hperm _].
      pose proof (get_len_train_Ok s names) as Hlen.
      change (mapM _ names ≫= λ lens, Py.reduce_add lens) with (_get_len Train s names).
      destruct (_get_len Train s names); [done|]. apply Hlen.
      * intros ->. by apply Permutation_nil_l in Hperm.
      * apply Forall_forall. intros f Hf. rewrite Hperm in Hf.
        destruct (Hall f Hf) as (line & Hline & Hhead).
        rewrite Hs, last_binding_is_Some.
        apply list_elem_of_lookup in Hline as [k Hk].
        apply mapM_Ok_Forall2 in Hes.
        destruct (Forall2_lookup_l _ _ _ _ _ Hes Hk) as (ent & He & Hentry).
        apply line_entry_Ok in Hentry as [Htok _].
        rewrite Htok in Hhead. injection Hhead as <-.
        apply list_elem_of_fmap. exists (e_folder ent, e_stats ent). split; [done|].
        apply list_elem_of_fmap. exists ent. split; [done|].
        apply list_elem_of_lookup. eauto.
Qed.

Lemma X6_witness :
  is_ok (__init__ skew_root Train) = true
  ∧ ¬ (is_ok (__init__ empty_feed_root Train) = true).
Proof.
  split.
  - apply (X6_construction_succeeds_iff skew_root).
    split; [vm_compute; reflexivity|]. split; [discriminate|].
    intros f Hf.
    apply elem_of_cons in Hf as [->|Hf].
    { exists "n03 2 shark". split; [|reflexivity].
      do 2 apply list_elem_of_further. apply list_elem_of_here. }
    apply elem_of_cons in Hf as [->|Hf].
    { exists "n01 0 tench". split; [|reflexivity]. apply list_elem_of_here. }
    apply elem_of_cons in Hf as [->|Hf].
    { exists "n02 1 goldfish". split; [|reflexivity].
      apply list_elem_of_further, list_elem_of_here. }
    by apply elem_of_nil in Hf.
  - intros Hok. apply (X6_construction_succeeds_iff empty_feed_root) in Hok
      as (_ & _ & Hall).
    destruct (Hall "n01") as (line & Hline & _); [apply list_elem_of_here|].
    by apply elem_of_nil in Hline.
Defined.



(** ** Further properties of the index resolver *)

Lemma getitem_Ok_elem {A : Type} (l : list A) i x : Py.getitem l i = Ok x → x ∈ l.
Proof.
  unfold Py.getitem.
  destruct (_ || _); [done|].
  destruct (l !! _) as [y|] eqn:Hy; [|done].
  intros [= <-]. by eapply list_elem_of_lookup_2.
Qed.

Lemma getitem_raises_IndexError {A : Type} (l : list A) i e :
  Py.getitem l i = Raise e → e = IndexError.
Proof.
  unfold Py.getitem. destruct (_ || _); [congruence|].
  destruct (l !! _); [done | congruence].
Qed.

Lemma folder_and_image_Ok self name l p :
  folder_and_image self name l = Ok p →
  p.1 = name ∧ ∃ st, _folder_stats self !! name = Some st ∧ p.2 ∈ Stats.images st.
Proof.
  unfold folder_and_image, Py.dict_get.
  destruct (_folder_stats self !! name) as [st|]; simpl; [|done].
  destruct (Py.getitem (Stats.images st) l) as [img|] eqn:Himg; simpl; [|done].
  intros [= <-]. split; [done|]. exists st. split; [done|].
  by eapply getitem_Ok_elem.
Qed.

Lemma calculate_Ok self g p :
  _calculate_image_folder_and_name self g = Some (Ok p) →
  p.1 ∈ _folder_names self
  ∧ ∃ st, _folder_stats self !! p.1 = Some st ∧ p.2 ∈ Stats.images st.
Proof.
  unfold _calculate_image_folder_and_name.
  assert (Hfin : ∀ i l,
             (folder_name ← Py.getitem (_folder_names self) i;
              folder_and_image self folder_name l) = Ok p →
             p.1 ∈ _folder_names self
             ∧ ∃ st, _folder_stats self !! p.1 = Some st ∧ p.2 ∈ Stats.images st).
  { intros i l. destruct (Py.getitem (_folder_names self) i) as [name|] eqn:Hname;
      simpl; [|done].
    intros [-> Hst]%folder_and_image_Ok. split; [|done]. by eapply getitem_Ok_elem. }
  destruct (phase self).
  - destruct (train_loop _ _ _ _ _) as [[[s f]|e]|]; [|done|done].
    intros [= H]. by eapply Hfin.
  - intros [= H]. by eapply Hfin.
Qed.

(** X8. Whatever the dataset and the index, an item that [resolve] returns
    exists: its folder is in [FolderIndex] and has statistics, its image name
    is one of the [images] of that folder, and its class id is the [id] of
    that folder. *)
Theorem X8_resolved_item_exists (self : ImageNetDataset) (g : Z) (r : item) :
  __getitem__ self g = Some (Ok r) →
  (image r).1 ∈ _folder_names self
  ∧ ∃ st, _folder_stats self !! (image r).1 = Some st
          ∧ (image r).2 ∈ Stats.images st
          ∧ class_id r = Stats.id st.
Proof.
  unfold __getitem__.
  destruct (_calculate_image_folder_and_name self g) as [[p|e]|] eqn:Hcalc; [|done|done].
  destruct (calculate_Ok self g p Hcalc) as (Hname & st & Hst & Himg).
  simpl. rewrite (dict_get_Some _ _ _ Hst). simpl. intros [= <-]. simpl.
  split; [done|]. by exists st.
Qed.

Lemma X8_witness :
  "n03" ∈ _folder_names skew_train
  ∧ ∃ st, _folder_stats skew_train !! "n03" = Some st
          ∧ "c_2.JPEG" ∈ Stats.images st
          ∧ 2 = Stats.id st.
Proof.
  apply (X8_resolved_item_exists skew_train 1302
           {| image := ("n03", "c_2.JPEG"); class_id := 2 |}).
  vm_compute. reflexivity.
Defined.

Lemma train_loop_more_fuel fuel fuel' self g s f r :
  train_loop fuel self g s f = Some r → (fuel ≤ fuel')%nat →
  train_loop fuel' self g s f = Some r.
Proof.
  revert fuel' s f. induction fuel as [|fuel IH]; intros fuel' s f H Hle; [done|].
  destruct fuel' as [|fuel']; [lia|]. simpl in *.
  destruct (folder_len_at self f) as [n|e]; [|done].
  destruct (s + n <=? g); [|done]. apply IH; [done | lia].
Qed.

(** X9. The refinement loop ends for every dataset, every index and every
    start state, also with empty folders, missing statistics or a negative
    position: it has returned or raised after at most
    [len(FolderIndex) - folder_i + 1] tests of its condition, and more tests
    change nothing. *)
Theorem X9_train_loop_terminates (self : ImageNetDataset) (g s f : Z) (fuel : nat) :
  (loop_fuel self f ≤ fuel)%nat →
  ∃ r, train_loop (loop_fuel self f) self g s f = Some r
       ∧ train_loop fuel self g s f = Some r.
Proof.
  intros Hfuel.
  destruct (train_loop (loop_fuel self f) self g s f) as [r|] eqn:Hloop.
  - exists r. split; [done|]. by eapply train_loop_more_fuel.
  - exfalso. eapply train_loop_total; [|exact Hloop]. unfold loop_fuel. lia.
Qed.

Lemma X9_witness :
  ∃ r, train_loop (loop_fuel skew_train (-2)) skew_train (-1) 0 (-2) = Some r
       ∧ train_loop 100 skew_train (-1) 0 (-2) = Some r.
Proof.
  apply (X9_train_loop_terminates skew_train (-1) 0 (-2) 100).
  vm_compute. repeat constructor.
Defined.

Lemma folder_len_at_raises self i e :
  all_present self → folder_len_at self i = Raise e → e = IndexError.
Proof.
  intros Hall. unfold folder_len_at.
  destruct (Py.getitem (_folder_names self) i) as [name|e'] eqn:Hname; simpl.
  - apply getitem_Ok_elem in Hname. unfold all_present in Hall.
    rewrite Forall_forall in Hall. destruct (Hall name Hname) as [st Hst].
    by rewrite (dict_get_Some _ _ _ Hst).
  - intros [= <-]. by eapply getitem_raises_IndexError.
Qed.

Lemma train_loop_raises fuel self g s f e :
  all_present self → train_loop fuel self g s f = Some (Raise e) → e = IndexError.
Proof.
  intros Hall. revert s f. induction fuel as [|fuel IH]; intros s f H; simpl in H; [done|].
  destruct (folder_len_at self f) as [n|e'] eqn:Hn.
  - destruct (s + n <=? g); [by eapply IH | done].
  - injection H as <-. by eapply folder_len_at_raises.
Qed.

Lemma final_lookup_raises self i l e :
  all_present self →
  (folder_name ← Py.getitem (_folder_names self) i;
   folder_and_image self folder_name l) = Raise e →
  e = IndexError.
Proof.
  intros Hall.
  destruct (Py.getitem (_folder_names self) i) as [name|e'] eqn:Hname; simpl.
  - apply getitem_Ok_elem in Hname. unfold all_present in Hall.
    rewrite Forall_forall in Hall. destruct (Hall name Hname) as [st Hst].
    unfold folder_and_image. rewrite (dict_get_Some _ _ _ Hst). simpl.
    destruct (Py.getitem (Stats.images st) l) as [img|e2] eqn:Himg; simpl; [done|].
    intros [= <-]. by eapply getitem_raises_IndexError.
  - intros [= <-]. by eapply getitem_raises_IndexError.
Qed.

(** X10. On a dataset in which every folder of [FolderIndex] has statistics,
    [resolve] raises nothing but [IndexError], in both phases and for every
    index: no lookup in [FolderStats] fails. *)
Theorem X10_only_IndexError (self : ImageNetDataset) (g : Z) (e : exn) :
  all_present self → __getitem__ self g = Some (Raise e) → e = IndexError.
Proof.
  intros Hall. unfold __getitem__.
  destruct (_calculate_image_folder_and_name self g) as [[p|e']|] eqn:Hcalc; [| |done].
  - destruct (calculate_Ok self g p Hcalc) as (_ & st & Hst & _).
    simpl. by rewrite (dict_get_Some _ _ _ Hst).
  - simpl. intros [= <-]. revert Hcalc. unfold _calculate_image_folder_and_name.
    destruct (phase self).
    + destruct (train_loop _ _ _ _ _) as [[[s f]|e2]|] eqn:Hloop; [| |done].
      * intros [= H]. by eapply final_lookup_raises.
      * intros [= <-]. by eapply train_loop_raises.
    + intros [= H]. by eapply final_lookup_raises.
Qed.

Lemma X10_witness : IndexError = IndexError.
Proof.
  apply (X10_only_IndexError skew_train 3900 IndexError).
  - apply wf_all_present, skew_train_wf.
  - vm_compute. reflexivity.
Defined.

(** X11. Val phase, dataset satisfying the invariants of the data model: the
    50 indices [50 * k, ..., 50 * k + 49] resolve, in this order, to the 50
    images of the folder at position [k] of [FolderIndex], all with the class
    id of that folder. *)
Theorem X11_val_folder_block (self : ImageNetDataset) (k : nat) :
  phase self = Val → well_formed self = true →
  50 * Z.of_nat k + 49 < __len__ self →
  ∃ name st,
    _folder_names self !! k = Some name
    ∧ _folder_stats self !! name = Some st
    ∧ ∀ l : nat, (l < 50)%nat →
        ∃ img, Stats.images st !! l = Some img
               ∧ __getitem__ self (50 * Z.of_nat k + Z.of_nat l)
                 = Some (Ok {| image := (name, img); class_id := Stats.id st |}).
Proof.
  intros Hph Hwf Hk.
  assert (Hdiv : ∀ l : nat, (l < 50)%nat →
            (50 * Z.of_nat k + Z.of_nat l) `div` 50 = Z.of_nat k
            ∧ (50 * Z.of_nat k + Z.of_nat l) `mod` 50 = Z.of_nat l).
  { intros l Hl. replace (50 * Z.of_nat k + Z.of_nat l)
      with (Z.of_nat l + Z.of_nat k * 50) by lia.
    rewrite Z.div_add, Z.mod_add by lia.
    rewrite Z.div_small, Z.mod_small by lia. lia. }
  destruct (val_resolve self (50 * Z.of_nat k + Z.of_nat 0) Hph Hwf ltac:(lia))
    as (name & st & img0 & Hname & Hst & _).
  destruct (Hdiv 0%nat ltac:(lia)) as [Hd0 _]. rewrite Hd0, Nat2Z.id in Hname.
  exists name, st. split; [done|]. split; [done|].
  intros l Hl.
  destruct (val_resolve self (50 * Z.of_nat k + Z.of_nat l) Hph Hwf ltac:(lia))
    as (name' & st' & img & Hname' & Hst' & Himg & _ & Hget).
  destruct (Hdiv l Hl) as [Hd Hm]. rewrite Hd, Nat2Z.id in Hname'.
  rewrite Hm, Nat2Z.id in Himg.
  assert (name' = name) as -> by congruence.
  assert (st' = st) as -> by congruence.
  by exists img.
Qed.

Lemma X11_witness :
  ∃ name st,
    _folder_names skew_val !! 2%nat = Some name
    ∧ _folder_stats skew_val !! name = Some st
    ∧ ∀ l : nat, (l < 50)%nat →
        ∃ img, Stats.images st !! l = Some img
               ∧ __getitem__ skew_val (50 * Z.of_nat 2 + Z.of_nat l)
                 = Some (Ok {| image := (name, img); class_id := Stats.id st |}).
Proof.
  apply (X11_val_folder_block skew_val 2).
  - vm_compute. reflexivity.
  - vm_compute. reflexivity.
  - vm_compute. reflexivity.
Defined.

Lemma distinct_images_NoDup self name st :
  distinct_images self = true → name ∈ _folder_names self →
  _folder_stats self !! name = Some st → NoDup (Stats.images st).
Proof.
  unfold distinct_images. intros Hall Hin%list_elem_of_In Hst.
  rewrite forallb_forall in Hall. specialize (Hall _ Hin). rewrite Hst in Hall.
  by apply bool_decide_eq_true in Hall.
Qed.

(** X12. Val phase, dataset satisfying the invariants of the data model,
    with distinct folder names and distinct image names in every folder: two
    valid indices that resolve to the same item are equal, so every image is
    returned by exactly one index of [0, length). *)
Theorem X12_val_injective (self : ImageNetDataset) (i j : Z) :
  phase self = Val → well_formed self = true →
  NoDup (_folder_names self) → distinct_images self = true →
  0 ≤ i < __len__ self → 0 ≤ j < __len__ self →
  __getitem__ self i = __getitem__ self j → i = j.
Proof.
  intros Hph Hwf Hnames Himgs Hi Hj Heq.
  destruct (val_resolve self i Hph Hwf Hi) as (ni & sti & imi & Hni & Hsti & Himi & _ & Hgi).
  destruct (val_resolve self j Hph Hwf Hj) as (nj & stj & imj & Hnj & Hstj & Himj & _ & Hgj).
  rewrite Hgi, Hgj in Heq. injection Heq as Hn Him _. subst nj imj.
  assert (stj = sti) as -> by congruence.
  pose proof (NoDup_lookup _ _ _ _ Hnames Hni Hnj) as Hp.
  assert (Hnd : NoDup (Stats.images sti)).
  { eapply distinct_images_NoDup; [done| |done]. by eapply list_elem_of_lookup_2. }
  pose proof (NoDup_lookup _ _ _ _ Hnd Himi Himj) as Hl.
  pose proof (Z.div_mod i 50 ltac:(lia)). pose proof (Z.div_mod j 50 ltac:(lia)).
  pose proof (Z.mod_pos_bound i 50 ltac:(lia)).
  pose proof (Z.mod_pos_bound j 50 ltac:(lia)).
  assert (0 ≤ i `div` 50) by (apply Z.div_pos; lia).
  assert (0 ≤ j `div` 50) by (apply Z.div_pos; lia).
  lia.
Qed.

Lemma X12_witness : 7 = 7.
Proof.
  apply (X12_val_injective skew_val 7 7).
  - vm_compute. reflexivity.
  - vm_compute. reflexivity.
  - apply (bool_decide_eq_true_1 (NoDup (_folder_names skew_val))). vm_compute. reflexivity.
  - vm_compute. reflexivity.
  - split; vm_compute; [discriminate | reflexivity].
  - split; vm_compute; [discriminate | reflexivity].
  - reflexivity.
Defined.

(** X13. Train phase, dataset satisfying the invariants of the data model,
    valid index: [resolve] returns the item of the decomposition
    [global_idx = cumulative_length_before p + l] when the index is below
    1300, and when every folder before position [global_idx div 1300] holds
    exactly 1300 items. *)
Theorem X13_train_exact_cases (self : ImageNetDataset) (g : Z) :
  phase self = Train → well_formed self = true → 0 ≤ g < __len__ self →
  g < 1300
  ∨ Forall (λ n, n = 1300) (take (Z.to_nat (g `div` 1300)) (folder_lens self)) →
  ∃ r, __getitem__ self g = Some (Ok r) ∧ decomposes self g r.
Proof.
  intros Hph Hwf Hg Hcase. apply train_decomposes_exact; try done.
  destruct Hcase as [Hsmall|Hfull]; [apply approx_exact_small; lia|].
  unfold approx_exact, cumulative_length_before.
  rewrite (sumZ_const _ 1300 Hfull), length_take, folder_lens_length.
  pose proof (approx_lt_length self g Hph Hwf Hg) as Hlt.
  pose proof (approx_bounds self g (proj1 (conj Hg I))) as [Hk0 _].
  unfold Py.len in Hlt. lia.
Qed.

Lemma X13_witness :
  ∃ r, __getitem__ skew_train 1299 = Some (Ok r) ∧ decomposes skew_train 1299 r.
Proof.
  apply (X13_train_exact_cases skew_train 1299).
  - vm_compute. reflexivity.
  - vm_compute. reflexivity.
  - split; vm_compute; [discriminate | reflexivity].
  - left. reflexivity.
Defined.

(** X14. The sort key of an image name: a name without [.] and [_] has no
    key ([IndexError]); for a name [a sep b rest], where [a] and [b] hold no
    separator and [rest] is empty or starts with a separator, the key is
    [int(b)], whatever [a] and [rest] are. *)
Theorem X14_image_key (a b rest : string) (c : ascii) :
  (no_sep a = true → image_key a = Raise IndexError)
  ∧ (no_sep a = true → is_sep c = true → no_sep b = true →
     (rest = "" ∨ ∃ c' r, rest = String c' r ∧ is_sep c' = true) →
     image_key (a +:+ String c (b +:+ rest)) = Py.int b).
Proof.
  split; [apply image_key_no_separator | apply image_key_between_separators].
Qed.

Lemma X14_witness :
  image_key "README" = Raise IndexError
  ∧ image_key ("n01440764" +:+ String "_" ("10026" +:+ ".JPEG")) = Py.int "10026".
Proof.
  split.
  - apply (X14_image_key "README" "" "" "_"). reflexivity.
  - apply (X14_image_key "n01440764" "10026" ".JPEG" "_"); try reflexivity.
    right. by exists "."%char, "JPEG".
Defined.

(** ** The image of an item *)

Lemma getitem_image_resolves self decode transforms g img cid :
  getitem_image self decode transforms g = Some (Ok (img, cid)) →
  ∃ p st raw,
    _calculate_image_folder_and_name self g = Some (Ok p)
    ∧ _folder_stats self !! p.1 = Some st ∧ cid = Stats.id st
    ∧ decode (p.1) (p.2) = Ok raw
    ∧ match transforms with
      | Some t => ∃ d, t (if (length (shape raw) =? 2)%nat then dstack3 raw else raw) = Ok d
                       ∧ d !! "image" = Some img
      | None => img = if (length (shape raw) =? 2)%nat then dstack3 raw else raw
      end.
Proof.
  unfold getitem_image.
  destruct (_calculate_image_folder_and_name self g) as [[p|e]|] eqn:Hcalc; [|done|done].
  simpl. destruct (decode p.1 p.2) as [raw|] eqn:Hraw; simpl; [|done].
  destruct (calculate_Ok self g p Hcalc) as (_ & st & Hst & _).
  rewrite (dict_get_Some _ _ _ Hst).
  destruct transforms as [t|]; simpl.
  - destruct (t _) as [d|] eqn:Ht; simpl; [|done]. unfold Py.dict_get.
    destruct (d !! "image") as [im|] eqn:Hd; simpl; [|done].
    intros [= <- <-]. exists p, st, raw. repeat split; try done. by exists d.
  - intros [= <- <-]. by exists p, st, raw.
Qed.

(** X15. Without transforms, the image that [__getitem__] returns never has
    two dimensions: a decoded image of shape (H, W) comes back with shape
    (H, W, 3) and the decoded value of (i, j) in each of its three channels;
    a decoded image of any other rank comes back unchanged. *)
Theorem X15_grayscale_to_three_channels (self : ImageNetDataset)
    (decode : string → string → result ndarray) (g : Z) (img : ndarray) (cid : Z) :
  getitem_image self decode None g = Some (Ok (img, cid)) →
  length (shape img) ≠ 2%nat
  ∧ ∃ p raw,
      _calculate_image_folder_and_name self g = Some (Ok p)
      ∧ decode (p.1) (p.2) = Ok raw
      ∧ (length (shape raw) = 2%nat →
         shape img = (shape raw ++ [3%nat])%list
         ∧ ∀ i j c, pixel img [i; j; c] = pixel raw [i; j])
      ∧ (length (shape raw) ≠ 2%nat → img = raw).
Proof.
  intros H.
  destruct (getitem_image_resolves _ _ _ _ _ _ H) as (p & st & raw & Hp & _ & _ & Hraw & ->).
  destruct (Nat.eqb_spec (length (shape raw)) 2) as [H2|H2].
  - split; [simpl; rewrite length_app; simpl; lia|].
    exists p, raw. repeat split; try done.
  - split; [done|]. exists p, raw. repeat split; try done.
Qed.

Lemma X15_witness :
  length (shape (dstack3 {| shape := [4; 5]%nat; pixel := λ idx, 7 |})) ≠ 2%nat
  ∧ ∃ p raw,
      _calculate_image_folder_and_name skew_val 0 = Some (Ok p)
      ∧ (λ _ _ : string, Ok {| shape := [4; 5]%nat; pixel := λ idx, 7 |}) (p.1) (p.2) = Ok raw
      ∧ (length (shape raw) = 2%nat →
         shape (dstack3 {| shape := [4; 5]%nat; pixel := λ idx, 7 |}) = (shape raw ++ [3%nat])%list
         ∧ ∀ i j c, pixel (dstack3 {| shape := [4; 5]%nat; pixel := λ idx, 7 |}) [i; j; c]
                    = pixel raw [i; j])
      ∧ (length (shape raw) ≠ 2%nat →
         dstack3 {| shape := [4; 5]%nat; pixel := λ idx, 7 |} = raw).
Proof.
  apply (X15_grayscale_to_three_channels skew_val
           (λ _ _, Ok {| shape := [4; 5]%nat; pixel := λ idx, 7 |}) 0 _ 0).
  vm_compute. reflexivity.
Defined.

(** X16. [__getitem__] with its image agrees with the index resolver: what
    the resolver raises is raised before any file is decoded, whatever the
    decoder and the transform; and an item comes back exactly when the
    resolver returns, the resolved file decodes and the transform, when there
    is one, returns a dict with the key "image". Its class id is the one the
    resolver gives; its image is the decoded one, with three channels in
    place of a 2-D image, or what the transform returns for that image, which
    never has two dimensions. *)
Theorem X16_image_follows_resolver (self : ImageNetDataset)
    (decode : string → string → result ndarray)
    (transforms : option (ndarray → result (gmap string ndarray))) (g : Z) :
  (∀ e, __getitem__ self g = Some (Raise e) →
        getitem_image self decode transforms g = Some (Raise e))
  ∧ (∀ img cid,
       getitem_image self decode transforms g = Some (Ok (img, cid))
       ↔ ∃ r raw,
           __getitem__ self g = Some (Ok r) ∧ class_id r = cid
           ∧ decode (image r).1 (image r).2 = Ok raw
           ∧ length (shape (if (length (shape raw) =? 2)%nat
                            then dstack3 raw else raw)) ≠ 2%nat
           ∧ match transforms with
             | Some t =>
                 ∃ d, t (if (length (shape raw) =? 2)%nat then dstack3 raw else raw) = Ok d
                      ∧ d !! "image" = Some img
             | None => img = if (length (shape raw) =? 2)%nat then dstack3 raw else raw
             end).
Proof.
  split.
  - intros e. unfold __getitem__, getitem_image.
    destruct (_calculate_image_folder_and_name self g) as [[p|e']|] eqn:Hcalc; [| |done].
    + destruct (calculate_Ok self g p Hcalc) as (_ & st & Hst & _).
      simpl. by rewrite (dict_get_Some _ _ _ Hst).
    + simpl. by intros [= <-].
  - intros img cid. split.
    + intros H.
      destruct (getitem_image_resolves _ _ _ _ _ _ H)
        as (p & st & raw & Hp & Hst & -> & Hraw & Ht).
      exists {| image := p; class_id := Stats.id st |}, raw. simpl.
      split; [|split; [done|split; [done|split; [|done]]]].
      * unfold __getitem__. rewrite Hp. simpl. by rewrite (dict_get_Some _ _ _ Hst).
      * destruct (Nat.eqb_spec (length (shape raw)) 2) as [H2|H2]; [|done].
        simpl. rewrite length_app. simpl. lia.
    + intros (r & raw & Hr & Hcid & Hraw & _ & Ht).
      unfold __getitem__ in Hr. unfold getitem_image.
      destruct (_calculate_image_folder_and_name self g) as [[p|e']|] eqn:Hcalc;
        [|done|done].
      destruct (calculate_Ok self g p Hcalc) as (_ & st & Hst & _).
      simpl in Hr. rewrite (dict_get_Some _ _ _ Hst) in Hr. simpl in Hr.
      injection Hr as <-. simpl in *. subst cid.
      rewrite Hraw. simpl. rewrite (dict_get_Some _ _ _ Hst).
      destruct transforms as [t|]; simpl.
      * destruct Ht as (d & -> & Hd). simpl. unfold Py.dict_get. by rewrite Hd.
      * by rewrite Ht.
Qed.

Lemma X16_witness :
  getitem_image skew_val (λ _ _, Raise FileNotFoundError) None 150
  = Some (Raise IndexError)
  ∧ ∃ r raw,
      __getitem__ skew_val 0 = Some (Ok r) ∧ class_id r = 0
      ∧ (λ _ _ : string, Ok {| shape := [4; 5]%nat; pixel := λ idx, 7 |})
          (image r).1 (image r).2 = Ok raw
      ∧ length (shape (if (length (shape raw) =? 2)%nat
                       then dstack3 raw else raw)) ≠ 2%nat
      ∧ dstack3 {| shape := [4; 5]%nat; pixel := λ idx, 7 |}
        = if (length (shape raw) =? 2)%nat then dstack3 raw else raw.
Proof.
  split.
  - apply (X16_image_follows_resolver skew_val (λ _ _, Raise FileNotFoundError) None 150).
    vm_compute. reflexivity.
  - destruct (X16_image_follows_resolver skew_val
                (λ _ _, Ok {| shape := [4; 5]%nat; pixel := λ idx, 7 |}) None 0)
      as [_ Hiff].
    apply (proj1 (Hiff (dstack3 {| shape := [4; 5]%nat; pixel := λ idx, 7 |}) 0)).
    vm_compute. reflexivity.
Defined.

(** ** Monotonicity inside a block of 1300 indices *)

Lemma train_loop_position_ge fuel self g s f s' p :
  train_loop fuel self g s f = Some (Ok (s', p)) → f ≤ p.
Proof.
  revert s f. induction fuel as [|fuel IH]; intros s f H; simpl in H; [done|].
  destruct (folder_len_at self f) as [n|e]; [|done].
  destruct (s + n <=? g).
  - apply IH in H. lia.
  - injection H as _ <-. lia.
Qed.

Lemma train_loop_monotone fuel fuel' self g g' s f s1 p1 s2 p2 :
  g ≤ g' →
  train_loop fuel self g s f = Some (Ok (s1, p1)) →
  train_loop fuel' self g' s f = Some (Ok (s2, p2)) →
  p1 ≤ p2.
Proof.
  intros Hg. revert fuel' s f.
  induction fuel as [|fuel IH]; intros fuel' s f H1 H2; simpl in H1; [done|].
  destruct fuel' as [|fuel']; simpl in H2; [done|].
  destruct (folder_len_at self f) as [n|e]; [|done].
  destruct (Z.leb_spec (s + n) g) as [Hle|Hgt].
  - destruct (Z.leb_spec (s + n) g') as [_|?]; [|lia]. by eapply IH.
  - injection H1 as _ <-.
    destruct (Z.leb_spec (s + n) g') as [_|_].
    + apply train_loop_position_ge in H2. lia.
    + injection H2 as _ <-. lia.
Qed.

(** X17. Train phase, any dataset: among indices of the same block of 1300
    (same [global_idx div 1300]) the refinement loop is monotonic; for
    [i <= j] the folder position at which it ends for [i] is at most the one
    at which it ends for [j]. *)
Theorem X17_monotone_within_block (self : ImageNetDataset) (i j s1 p1 s2 p2 : Z) :
  i ≤ j → i `div` 1300 = j `div` 1300 →
  train_loop (loop_fuel self (i `div` 1300)) self i (1300 * (i `div` 1300)) (i `div` 1300)
  = Some (Ok (s1, p1)) →
  train_loop (loop_fuel self (j `div` 1300)) self j (1300 * (j `div` 1300)) (j `div` 1300)
  = Some (Ok (s2, p2)) →
  p1 ≤ p2.
Proof.
  intros Hij Hblock H1 H2. rewrite <- Hblock in H2.
  by eapply train_loop_monotone.
Qed.

Lemma X17_witness : 1 ≤ 2.
Proof.
  apply (X17_monotone_within_block skew_train 1300 1301 1300 1 1301 2).
  - lia.
  - reflexivity.
  - vm_compute. reflexivity.
  - vm_compute. reflexivity.
Defined.
